(** * zen-pool-chart: the synchronisation core of [main.py]

    A shallow embedding of the script that mirrors the shielded-pool value
    of every block of a zend node into a CSV file, and the properties of
    its synchronisation, verification and storage code.

    The script talks to three things outside itself: the CSV file on disk,
    the standard output, and the node's RPC endpoint.  They make up the
    [world] that every function threads; Python exceptions are the error
    half of the [result] type. *)

From Stdlib Require Import ZArith List String Ascii Bool Lia.
From Stdlib Require Import DecimalString DecimalZ DecimalPos.
Import ListNotations.
Set Warnings "-register-all".

Notation "s1 +++ s2" := (String.append s1 s2)
  (at level 60, right associativity) : string_scope.
Open Scope string_scope.
Open Scope list_scope.
Open Scope Z_scope.

(** ** Python exceptions and results *)

(** The exceptions that the script can raise or meet.  [SystemExit] carries
    the argument given to [exit()] / [quit()]. *)
Inductive exn : Type :=
| FileNotFoundError
| StopIteration
| IndexError
| ValueError
| KeyError
| TypeError
| ZeroDivisionError
| OverflowError
| JSONDecodeError
| ConnectionError
| Timeout
| KeyboardInterrupt
| SystemExit (code : option Z).

Inductive result (A : Type) : Type :=
| Ok (a : A)
| Raise (e : exn).
Arguments Ok {A} a.
Arguments Raise {A} e.

(** ** Floating-point values

    The pool values are Python floats.  The script never computes with
    them: it writes them with [str] (which is [repr] on a float), reads
    them back with [float(...)], and may truncate one with [int(...)].
    These three operations are the interface of the float type. *)
Inductive truncation : Type :=
| Whole (z : Z)
| Infinite (* [int(inf)]: OverflowError *)
| NotANumber (* [int(nan)]: ValueError *).

Class PyFloat : Type := {
  pyfloat : Type;
  repr : pyfloat -> string;
  float : string -> option pyfloat; (* [None]: ValueError *)
  int_of_float : pyfloat -> truncation
}.

(** What the round-trip properties need of the floats: a printed float
    reads back as itself. *)
Definition float_repr_roundtrip (F : PyFloat) : Prop :=
  forall x : pyfloat, float (repr x) = Some x.

(** ** Integers as text: [str(i)] and [int(s)] *)

Definition str (i : Z) : string := NilZero.string_of_int (Z.to_int i).

(** [int(s)] on a string of decimal digits with an optional minus sign;
    anything else is a ValueError.  (Python also takes surrounding blanks,
    a plus sign and underscores between digits, which [str] never
    writes.)  What this [int] reads, Python reads as the same integer:
    the statements below take a height cell by its success, and the
    examples that need a failure use a text without any digit, which
    Python refuses too. *)
Definition int (s : string) : result Z :=
  match NilZero.int_of_string s with
  | Some d => Ok (Z.of_int d)
  | None => Raise ValueError
  end.

Section Script.
Context {F : PyFloat}.

(** ** JSON payloads, as [response.json()] returns them *)

Inductive json : Type :=
| JNull
| JBool (b : bool)
| JInt (n : Z)
| JFloat (x : pyfloat)
| JStr (s : string)
| JArr (items : list json)
| JObj (fields : list (string * json)).

Fixpoint dict_get (key : string) (fields : list (string * json)) : option json :=
  match fields with
  | [] => None
  | (k, v) :: rest => if String.eqb k key then Some v else dict_get key rest
  end.

(** [obj[key]] with a string key. *)
Definition item (key : string) (obj : json) : result json :=
  match obj with
  | JObj fields =>
      match dict_get key fields with
      | Some v => Ok v
      | None => Raise KeyError
      end
  | _ => Raise TypeError
  end.

(** [obj[0]]. *)
Definition first (obj : json) : result json :=
  match obj with
  | JArr [] => Raise IndexError
  | JArr (x :: _) => Ok x
  | JStr EmptyString => Raise IndexError
  | JStr (String c _) => Ok (JStr (String c EmptyString))
  | JObj _ => Raise KeyError
  | _ => Raise TypeError
  end.

(** [int(obj)] on a decoded JSON value. *)
Definition int_of_json (obj : json) : result Z :=
  match obj with
  | JInt n => Ok n
  | JBool b => Ok (if b then 1 else 0)
  | JFloat x =>
      match int_of_float x with
      | Whole z => Ok z
      | Infinite => Raise OverflowError
      | NotANumber => Raise ValueError
      end
  | JStr s => int s
  | JNull | JArr _ | JObj _ => Raise TypeError
  end.

Definition join_comma :=
  fix go (l : list string) : string :=
    match l with
    | [] => ""
    | [s] => s
    | s :: rest => s +++ ", " +++ go rest
    end.

(** [repr(obj)] of a decoded JSON value (strings are quoted without
    escapes). *)
Fixpoint py_repr (obj : json) : string :=
  match obj with
  | JNull => "None"
  | JBool b => if b then "True" else "False"
  | JInt n => str n
  | JFloat x => repr x
  | JStr s => "'" +++ s +++ "'"
  | JArr items => "[" +++ join_comma (map py_repr items) +++ "]"
  | JObj fields =>
      "{" +++ join_comma
                (map (fun kv => "'" +++ fst kv +++ "': " +++ py_repr (snd kv)) fields)
          +++ "}"
  end.

(** The text that [csv.writer] puts in a cell: [None] is the empty string,
    a string is written as it is, anything else goes through [str]. *)
Definition csv_cell (obj : json) : string :=
  match obj with
  | JNull => ""
  | JStr s => s
  | _ => py_repr obj
  end.

(** ** The world outside the script *)

(** A CSV file is the list of its rows, a row the list of its cells, as
    [csv.reader] yields them and [csv.writer] takes them.  Every line of
    the file is taken to end with a newline, as the header that [main]
    writes and the rows that the writer adds do; a file whose last line
    lacks one is outside the model, since text appended to it would join
    that line. *)
Definition row : Type := list string.

(** The two JSON-RPC requests of the script: [getblock] with its one
    positional parameter, and [getblockcount] without any. *)
Inductive request : Type :=
| getblock (param : string)
| getblockcount.

Record response : Type := {
  status_code : Z;
  text : string;
  body : option json (* what [response.json()] decodes; [None]: not JSON *)
}.

(** [requests.post] either raises or returns a response.  It raises when
    the connection fails, when the wait of [RPC_TIMEOUT] seconds expires,
    and when the user's interrupt arrives while the request is in flight
    (Python raises [KeyboardInterrupt] wherever the main thread is). *)
Inductive posted : Type :=
| Refused
| TimedOut
| Interrupted
| Returns (r : response).

(** What the script cannot control: how the node answers each request, and
    after which blocks of the fetch loop the user's interrupt arrives
    between two requests. *)
Record environment : Type := {
  zend : request -> posted;
  sigint_after : Z -> bool
}.

(** Every call of the script passes [CSV_FILE_PATH], so the disk is that
    one file: [None] when it does not exist.  [stdout] are the lines
    printed, [wire] the requests sent, both oldest first. *)
Record world : Type := {
  disk : option (list row);
  stdout : list string;
  wire : list request
}.

(** Computations: a state monad over the world, with Python exceptions. *)
Definition M (A : Type) : Type := world -> result A * world.

Definition ret {A} (a : A) : M A := fun w => (Ok a, w).

Definition raise {A} (e : exn) : M A := fun w => (Raise e, w).

Definition bind {A B} (m : M A) (k : A -> M B) : M B :=
  fun w =>
    match m w with
    | (Ok a, w') => k a w'
    | (Raise e, w') => (Raise e, w')
    end.

Definition lift {A} (r : result A) : M A := fun w => (r, w).

End Script.

Notation "x <- m ;; k" := (bind m (fun x => k))
  (at level 61, m at next level, right associativity).
Notation "m ;;; k" := (bind m (fun _ => k))
  (at level 61, right associativity).

Section Functions.
Context {F : PyFloat}.

(** ** Primitive effects *)

Definition print (line : string) : M unit :=
  fun w => (Ok tt, {| disk := disk w; stdout := stdout w ++ [line]; wire := wire w |}).

(** [requests.post(RPC_ENDPOINT_URL, json=payload_data, ...)]: the request
    goes on the wire once, and the node's behaviour decides the outcome. *)
Definition requests_post (E : environment) (payload_data : request) : M response :=
  fun w =>
    let w' := {| disk := disk w; stdout := stdout w; wire := wire w ++ [payload_data] |} in
    match zend E payload_data with
    | Refused => (Raise ConnectionError, w')
    | TimedOut => (Raise Timeout, w')
    | Interrupted => (Raise KeyboardInterrupt, w')
    | Returns r => (Ok r, w')
    end.

(** [response.json()] *)
Definition response_json (r : response) : M json :=
  match body r with
  | Some data => ret data
  | None => raise JSONDecodeError
  end.

(** [l[i]] and [l[-1]] on a Python list. *)
Definition subscript {A} (l : list A) (i : nat) : result A :=
  match nth_error l i with
  | Some a => Ok a
  | None => Raise IndexError
  end.

Definition last_item {A} (l : list A) : result A :=
  match rev l with
  | a :: _ => Ok a
  | [] => Raise IndexError
  end.

(** ** Remote value source *)

(** Lines 27-45. *)
Definition get_block_sprout_chain_value (E : environment) (block_height : Z) : M json :=
  response <- requests_post E (getblock (str block_height)) ;;
  if Z.eqb (status_code response) 200 then
    response_data <- response_json response ;;
    result_ <- lift (item "result" response_data) ;;
    pools <- lift (item "valuePools" result_) ;;
    pool <- lift (first pools) ;;
    lift (item "chainValue" pool)
  else
    print ("An error occurred while requesting data: "
           +++ str (status_code response) +++ " - " +++ text response) ;;;
    raise (SystemExit None).

(** Lines 86-98.  There is no [return] after the [if]: on any other status
    the Python function falls off its end and returns [None]. *)
Definition get_last_block_from_zend (E : environment) : M (option Z) :=
  response <- requests_post E getblockcount ;;
  if Z.eqb (status_code response) 200 then
    response_data <- response_json response ;;
    result_ <- lift (item "result" response_data) ;;
    tip <- lift (int_of_json result_) ;;
    ret (Some tip)
  else
    ret None.

(** ** Series store *)

(** The loop of lines 66-68 over the rows that follow the header. *)
Fixpoint read_rows (reader : list row)
    (block_height_data : list Z) (shielded_pool_data : list pyfloat)
    : result (list Z * list pyfloat) :=
  match reader with
  | [] => Ok (block_height_data, shielded_pool_data)
  | row :: rest =>
      match subscript row 0 with
      | Raise e => Raise e
      | Ok cell0 =>
          match int cell0 with
          | Raise e => Raise e
          | Ok height =>
              match subscript row 1 with
              | Raise e => Raise e
              | Ok cell1 =>
                  match float cell1 with
                  | None => Raise ValueError
                  | Some value =>
                      read_rows rest (block_height_data ++ [height])
                                (shielded_pool_data ++ [value])
                  end
              end
          end
      end
  end.

(** Lines 47-70: [open] fails on a missing file, [next(reader)] skips the
    header and fails on a file without any row. *)
Definition get_csv_data : M (list Z * list pyfloat) :=
  fun w =>
    match disk w with
    | None => (Raise FileNotFoundError, w)
    | Some [] => (Raise StopIteration, w)
    | Some (_ :: reader) => (read_rows reader [] [], w)
    end.

(** Lines 72-84. *)
Definition get_last_block_from_csv : M Z :=
  data <- get_csv_data ;;
  lift (last_item (fst data)).

(** Lines 123-127: [open(filepath, 'a')] creates the file when it is
    missing, and [writerows] adds one row of two cells per entry. *)
Definition csv_rows (data : list (Z * json)) : list row :=
  map (fun entry => [str (fst entry); csv_cell (snd entry)]) data.

Definition writerows (data : list (Z * json)) : M unit :=
  fun w =>
    let old := match disk w with Some rows => rows | None => [] end in
    (Ok tt, {| disk := Some (old ++ csv_rows data); stdout := stdout w; wire := wire w |}).

(** ** Sync engine *)

(** Lines 116-118.  The percentage divides by [end_height]. *)
Definition progress_update (i end_height : Z) : M unit :=
  if Z.eqb (i mod 10000) 0 then
    if Z.eqb end_height 0 then raise ZeroDivisionError
    else print ("Processing block " +++ str i +++ "/" +++ str end_height
                +++ " [" +++ str (i * 100 / end_height) +++ "%]")
  else ret tt.

(** The interrupt arriving once block [i] is recorded. *)
Definition interrupt_point (E : environment) (i : Z) : M unit :=
  if sigint_after E i then raise KeyboardInterrupt else ret tt.

(** The body of the [try] of lines 112-118: [count] iterations of the
    [for] loop from height [i].  [data] is a Python list that outlives an
    exception, so the loop hands it back together with its outcome. *)
Fixpoint fetch_loop (E : environment) (end_height : Z) (count : nat) (i : Z)
    (data : list (Z * json)) (w : world) : list (Z * json) * result unit * world :=
  match count with
  | O => (data, Ok tt, w)
  | S count' =>
      match get_block_sprout_chain_value E i w with
      | (Raise e, w1) => (data, Raise e, w1)
      | (Ok value, w1) =>
          let data1 := data ++ [(i, value)] in
          match (progress_update i end_height ;;; interrupt_point E i) w1 with
          | (Raise e, w2) => (data1, Raise e, w2)
          | (Ok _, w2) => fetch_loop E end_height count' (i + 1) data1 w2
          end
      end
  end.

Definition saving_message : string :=
  String (ascii_of_nat 10) "Saving data and quitting...".

(** Lines 100-130.  Only [KeyboardInterrupt] is caught; any other
    exception leaves the function before the file is opened. *)
Definition update_csv_file (E : environment) (start_height end_height : Z) : M unit :=
  fun w =>
    let '(data, outcome, w1) :=
      fetch_loop E end_height (Z.to_nat (end_height + 1 - start_height))
                 start_height [] w in
    let handled : M bool :=
      match outcome with
      | Ok _ => ret false
      | Raise KeyboardInterrupt => print saving_message ;;; ret true
      | Raise e => raise e
      end in
    (abort_requested <- handled ;;
     writerows data ;;;
     if abort_requested : bool then raise (SystemExit (Some 0)) else ret tt) w1.

Definition header_row : row := ["BLOCK HEIGHT"; "SHIELDED POOL VALUE"].

(** Lines 210-218 of [main]: the cursor of the store, with the two
    exceptions that [main] turns into "start from block 0". *)
Definition last_checked_block_of_csv : M Z :=
  fun w =>
    match get_last_block_from_csv w with
    | (Raise FileNotFoundError, w1) =>
        (Ok (-1), {| disk := Some [header_row]; stdout := stdout w1; wire := wire w1 |})
    | (Raise IndexError, w1) => (Ok (-1), w1)
    | other => other
    end.

Definition show_tip (tip : option Z) : string :=
  match tip with
  | Some n => str n
  | None => "None"
  end.

(** Lines 209-226 of [main]: the block run unless [--no_update]. *)
Definition synchronize (E : environment) : M unit :=
  last_checked_block <- last_checked_block_of_csv ;;
  last_available_block <- get_last_block_from_zend E ;;
  print ("Last CSV block: " +++ str last_checked_block) ;;;
  print ("Last Zend block: " +++ show_tip last_available_block) ;;;
  match last_available_block with
  | None => raise TypeError (* [int < None] *)
  | Some tip =>
      if last_checked_block <? tip
      then update_csv_file E (last_checked_block + 1) tip
      else ret tt
  end.

(** ** Consistency verifier *)

Definition anomaly_message (entry previous : Z) : string :=
  "Unexpected entry " +++ str entry +++ ", previous value " +++ str previous.

(** The loop of lines 143-145: [count] iterations from [index]. *)
Fixpoint verify_loop (blocks : list Z) (count : nat) (index : nat) : M unit :=
  match count with
  | O => ret tt
  | S count' =>
      (if negb (Z.eqb (nth index blocks 0) (nth (index - 1) blocks 0 + 1))
       then print (anomaly_message (nth index blocks 0) (nth (index - 1) blocks 0))
       else ret tt) ;;;
      verify_loop blocks count' (S index)
  end.

(** Lines 132-145. *)
Definition verify_csv_file : M unit :=
  data <- get_csv_data ;;
  let blocks := fst data in
  verify_loop blocks (List.length blocks - 1) 1.

(** ** Entry point *)

(** Lines 147-181.  Both chart functions load the series and hand it to a
    plotting library; the picture is no part of the world. *)
Definition show_chart (start_height : Z) : M unit :=
  csv_data <- get_csv_data ;;
  ret tt.

Definition show_chart_experimental (start_height : Z) : M unit :=
  csv_data <- get_csv_data ;;
  ret tt.

(** The options that [parse_arguments] returns. *)
Record arguments : Type := {
  plot_from_height : option string;
  no_update : bool;
  verify_data : bool;
  experimental : bool
}.

(** Lines 196-231. *)
Definition main (E : environment) (args : arguments) : M unit :=
  if verify_data args then verify_csv_file
  else
    start_height <- match plot_from_height args with
                    | Some s => lift (int s)
                    | None => ret 0
                    end ;;
    (if no_update args then ret tt else synchronize E) ;;;
    if experimental args
    then show_chart_experimental start_height
    else show_chart start_height.

End Functions.

(** ** Vocabulary of the properties *)

Section Vocabulary.
Context {F : PyFloat}.

Definition nowhere : world := {| disk := None; stdout := []; wire := [] |}.

(** What one call of each remote function yields; the world plays no part
    in it. *)
Definition block_outcome (E : environment) (h : Z) : result json :=
  fst (get_block_sprout_chain_value E h nowhere).

Definition tip_outcome (E : environment) : result (option Z) :=
  fst (get_last_block_from_zend E nowhere).

(** [range(i, i + m)] *)
Fixpoint range (i : Z) (m : nat) : list Z :=
  match m with
  | O => []
  | S m' => i :: range (i + 1) m'
  end.

Definition value_at (E : environment) (h : Z) : json :=
  match block_outcome E h with
  | Ok v => v
  | Raise _ => JNull
  end.

(** The entries and the requests of [m] heights from [i]. *)
Definition fetched (E : environment) (i : Z) (m : nat) : list (Z * json) :=
  map (fun h => (h, value_at E h)) (range i m).

Definition requests (i : Z) (m : nat) : list request :=
  map (fun h => getblock (str h)) (range i m).

(** The two things that can end an iteration once its block is recorded. *)
Definition after_block (E : environment) (end_height h : Z) (e : exn) : Prop :=
  (e = ZeroDivisionError /\ h mod 10000 = 0 /\ end_height = 0)
  \/ (e = KeyboardInterrupt /\ sigint_after E h = true).

(** The series that the store holds: what [load] returns. *)
Definition series (w : world) : result (list Z * list pyfloat) :=
  fst (get_csv_data w).

(** The store at the start of a run: not yet created, or holding the
    heights [hs] with the values [vs]. *)
Definition initial_series (w : world) (hs : list Z) (vs : list pyfloat) : Prop :=
  (disk w = None /\ hs = [] /\ vs = []) \/ series w = Ok (hs, vs).

(** The sync cursor of a series: its last height, [-1] when empty. *)
Definition cursor (hs : list Z) : Z :=
  match rev hs with
  | h :: _ => h
  | [] => -1
  end.

(** The file once [main] has made sure that it exists. *)
Definition created (w : world) : world :=
  {| disk := Some (match disk w with Some rows => rows | None => [header_row] end);
     stdout := stdout w;
     wire := wire w |}.

(** The world once [reqs] have gone out. *)
Definition sent (w : world) (reqs : list request) : world :=
  {| disk := disk w; stdout := stdout w; wire := wire w ++ reqs |}.

Definition rows_of (w : world) : list row :=
  match disk w with
  | Some rows => rows
  | None => []
  end.

(** A source whose values are floats, as the data model has them. *)
Definition float_valued (E : environment) : Prop :=
  forall h v, block_outcome E h = Ok v -> exists x, v = JFloat x.

(** The world once [lines] have been printed. *)
Definition printed (w : world) (lines : list string) : world :=
  {| disk := disk w; stdout := stdout w ++ lines; wire := wire w |}.

(** The anomalies of a series as the specification words them: one for
    every adjacent pair that breaks contiguity, naming the offending
    height and the height it followed. *)
Fixpoint anomalies (blocks : list Z) : list (Z * Z) :=
  match blocks with
  | [] => []
  | previous :: rest =>
      match rest with
      | [] => []
      | entry :: _ =>
          (if entry =? previous + 1 then [] else [(entry, previous)])
          ++ anomalies rest
      end
  end.

Definition anomaly_line (a : Z * Z) : string := anomaly_message (fst a) (snd a).

(** The pair of the heights at the positions [i] and [i + 1] breaks
    contiguity. *)
Definition breaks (blocks : list Z) (i : nat) : bool :=
  negb (nth (S i) blocks 0 =? nth i blocks 0 + 1).

(** Series entries as the [data] that the update hands to the writer. *)
Definition as_data (entries : list (Z * pyfloat)) : list (Z * json) :=
  map (fun e => (fst e, JFloat (snd e))) entries.

(** The store after [append]: lines 123-127 on their own. *)
Definition append (entries : list (Z * pyfloat)) (w : world) : world :=
  snd (writerows (as_data entries) w).

(** A row that the loop of lines 66-68 accepts: its first cell reads as
    the height [h] and its second as the value [v]; further cells are not
    looked at. *)
Definition parses (r : row) (h : Z) (v : pyfloat) : Prop :=
  exists c0 c1 rest, r = c0 :: c1 :: rest /\ int c0 = Ok h /\ float c1 = Some v.

(** [l[start:]]: a negative [start] counts from the end of the list. *)
Definition slice_from {A} (l : list A) (start : Z) : list A :=
  skipn (Z.to_nat (if start <? 0
                   then Z.max (Z.of_nat (List.length l) + start) 0
                   else start)) l.

(** The two lists that lines 160 and 178-179 hand to the plotting call. *)
Definition chart_input (start_height : Z) : M (list Z * list pyfloat) :=
  csv_data <- get_csv_data ;;
  ret (slice_from (fst csv_data) start_height,
       slice_from (snd csv_data) start_height).

(** The text of the progress line of line 118. *)
Definition progress_line (end_height i : Z) : string :=
  "Processing block " +++ str i +++ "/" +++ str end_height
  +++ " [" +++ str (i * 100 / end_height) +++ "%]".

End Vocabulary.

(** ** Nodes and stores to run the script against *)

Section Scenarios.
Context {F : PyFloat}.

Definition ok_response (data : json) : response :=
  {| status_code := 200; text := ""; body := Some data |}.

Definition error_response : response :=
  {| status_code := 500; text := "Internal Server Error"; body := None |}.

Definition block_payload (x : pyfloat) : json :=
  JObj [("result", JObj [("valuePools", JArr [JObj [("chainValue", JFloat x)]])])].

Definition count_payload (tip : Z) : json := JObj [("result", JInt tip)].

(** A node at the height [tip]; [block] tells how it treats the request
    for each height, [sigint] after which blocks the user interrupts. *)
Definition node_with (tip : Z) (block : Z -> posted) (sigint : Z -> bool)
    : environment :=
  {| zend := fun payload =>
       match payload with
       | getblockcount => Returns (ok_response (count_payload tip))
       | getblock param =>
           match int param with
           | Ok h => block h
           | Raise _ => Returns error_response
           end
       end;
     sigint_after := sigint |}.

Definition healthy (pool : Z -> pyfloat) (h : Z) : posted :=
  Returns (ok_response (block_payload (pool h))).

Definition never : Z -> bool := fun _ => false.

(** A node that answers every request. *)
Definition node (tip : Z) (pool : Z -> pyfloat) : environment :=
  node_with tip (healthy pool) never.

(** A node that answers every request with the status 500. *)
Definition failing_node : environment :=
  {| zend := fun _ => Returns error_response; sigint_after := never |}.

(** The store holding [rows] under its header. *)
Definition stored (rows : list row) : world :=
  {| disk := Some (header_row :: rows); stdout := []; wire := [] |}.

(** C9 as the specification states it: in a run that is cancelled, no
    request that went out was cut by the interrupt. *)
Definition interrupt_only_between_requests (E : environment) (w : world) : Prop :=
  forall w' payload,
    synchronize E w = (Raise (SystemExit (Some 0)), w') ->
    In payload (wire w') ->
    zend E payload <> Interrupted.

End Scenarios.

(** A model of the float interface to run the script with: floats that
    hold whole numbers.  Python writes them with the fractional part [.0]
    and reads them with or without it. *)
Fixpoint strip_point_zero (s : string) : string :=
  match s with
  | EmptyString => EmptyString
  | String c rest =>
      if String.eqb s ".0" then EmptyString else String c (strip_point_zero rest)
  end.

Definition whole_repr (z : Z) : string := str z +++ ".0".

Definition whole_float (s : string) : option Z :=
  match int (strip_point_zero s) with
  | Ok z => Some z
  | Raise _ => None
  end.

Definition whole_floats : PyFloat :=
  {| pyfloat := Z; repr := whole_repr; float := whole_float; int_of_float := Whole |}.

(** The pool of the example chain holds ten coins more with every block. *)
Definition pool (h : Z) : Z := 10 * h.

(** The example chain, except that the request for height [h] is refused,
    that it is cut by the interrupt, or that the interrupt arrives once
    block [h] is recorded. *)
Definition chain (tip : Z) : @environment whole_floats :=
  node tip (pool : Z -> @pyfloat whole_floats).

Definition node_refusing (tip h : Z) : @environment whole_floats :=
  node_with tip (fun i => if i =? h then Refused else healthy (F := whole_floats) pool i)
            never.

Definition node_interrupted_at (tip h : Z) : @environment whole_floats :=
  node_with tip
            (fun i => if i =? h then Interrupted else healthy (F := whole_floats) pool i)
            never.

Definition node_interrupted_after (tip h : Z) : @environment whole_floats :=
  node_with tip (healthy (F := whole_floats) pool) (fun i => i =? h).

(** The example chain, except that the node gives [null] for the value at
    height [h]. *)
Definition node_without_value (tip h : Z) : @environment whole_floats :=
  node_with tip
            (fun i => if i =? h
                      then Returns (ok_response
                                      (JObj [("result",
                                              JObj [("valuePools",
                                                     JArr [JObj [("chainValue", JNull)]])])]))
                      else healthy (F := whole_floats) pool i)
            never.

(** The same node, with the interrupt arriving once block [k] is
    recorded. *)
Definition node_without_value_interrupted_after (tip h k : Z)
    : @environment whole_floats :=
  {| zend := zend (node_without_value tip h); sigint_after := fun i => i =? k |}.

(** Command lines: [--verify_data] with a starting height that is no
    number, and a chart from height 2. *)
Definition verify_only : arguments :=
  {| plot_from_height := Some "soon"; no_update := false; verify_data := true;
     experimental := false |}.

Definition chart_from_two : arguments :=
  {| plot_from_height := Some "2"; no_update := false; verify_data := false;
     experimental := false |}.

(** A store with the heights from 0 to 3. *)
Definition four_blocks : world :=
  stored [["0"; "0.0"]; ["1"; "10.0"]; ["2"; "20.0"]; ["3"; "30.0"]].

(** The world that a run from nothing against [E] leaves. *)
Definition first_run (E : @environment whole_floats) : world :=
  snd (synchronize E nowhere).

(** * Properties *)

Ltac here := eexists; repeat split; reflexivity.

Section Properties.
Context {F : PyFloat}.

(** ** Integers as text *)

Lemma int_str (z : Z) : int (str z) = Ok z.
Proof.
  unfold int, str.
  rewrite NilZero.isi.
  - now rewrite DecimalZ.of_to.
  - destruct z; simpl; try discriminate.
    intros [= H]. now apply (Unsigned.to_uint_nonnil p).
  - destruct z; simpl; try discriminate.
    intros [= H]. now apply (Unsigned.to_uint_nonnil p).
Qed.

(** ** The remote calls *)

Lemma get_block_run (E : environment) (h : Z) (w : world) :
  exists w', get_block_sprout_chain_value E h w = (block_outcome E h, w')
             /\ disk w' = disk w
             /\ wire w' = wire w ++ [getblock (str h)].
Proof.
  unfold block_outcome, get_block_sprout_chain_value, bind, requests_post.
  destruct (zend E (getblock (str h))) as [| | | r]; simpl; try here.
  destruct (Z.eqb (status_code r) 200); simpl; [| here].
  unfold response_json. destruct (body r) as [j |]; simpl; [| here].
  unfold lift.
  destruct (item "result" j) as [j1 |]; simpl; [| here].
  destruct (item "valuePools" j1) as [j2 |]; simpl; [| here].
  destruct (first j2) as [j3 |]; simpl; [| here].
  destruct (item "chainValue" j3); here.
Qed.

Lemma get_tip_run (E : environment) (w : world) :
  get_last_block_from_zend E w = (tip_outcome E, sent w [getblockcount]).
Proof.
  unfold tip_outcome, get_last_block_from_zend, bind, requests_post, sent.
  destruct (zend E getblockcount) as [| | | r]; simpl; try reflexivity.
  destruct (Z.eqb (status_code r) 200); simpl; [| reflexivity].
  unfold response_json. destruct (body r) as [j |]; simpl; [| reflexivity].
  unfold lift.
  destruct (item "result" j) as [j1 |]; simpl; [| reflexivity].
  destruct (int_of_json j1); reflexivity.
Qed.

Lemma tip_outcome_raise (E : environment) (e : exn) :
  tip_outcome E = Raise e -> e <> SystemExit (Some 0).
Proof.
  unfold tip_outcome, get_last_block_from_zend, bind, requests_post.
  destruct (zend E getblockcount) as [| | | r]; simpl;
    try (intros [= <-]; discriminate).
  destruct (Z.eqb (status_code r) 200); simpl; [| discriminate].
  unfold response_json. destruct (body r) as [j |]; simpl;
    [| intros [= <-]; discriminate].
  unfold lift, item.
  destruct j; simpl; try (intros [= <-]; discriminate).
  destruct (dict_get "result" fields) as [j1 |]; simpl;
    [| intros [= <-]; discriminate].
  destruct j1; simpl; try discriminate; try (intros [= <-]; discriminate).
  - destruct (int_of_float x); simpl; try discriminate; intros [= <-]; discriminate.
  - unfold int. destruct (NilZero.int_of_string s); simpl;
      [discriminate | intros [= <-]; discriminate].
Qed.

(** ** The fetch loop *)

Lemma range_snoc (m : nat) : forall i, range i (S m) = range i m ++ [i + Z.of_nat m].
Proof.
  induction m as [| m IH]; intros i.
  - simpl. now rewrite Z.add_0_r.
  - change (range i (S (S m))) with (i :: range (i + 1) (S m)).
    rewrite IH. simpl. do 3 f_equal. lia.
Qed.

Lemma range_length (m : nat) : forall i, List.length (range i m) = m.
Proof. induction m; intros; simpl; auto. Qed.

Lemma range_app (m k : nat) :
  forall i, range i (m + k) = range i m ++ range (i + Z.of_nat m) k.
Proof.
  induction m as [| m IH]; intros i.
  - simpl. now rewrite Z.add_0_r.
  - simpl range at 1 2. rewrite IH. simpl. do 3 f_equal. lia.
Qed.

Lemma after_body (E : environment) (end_height i : Z) (w : world) r w' :
  (progress_update i end_height ;;; interrupt_point E i) w = (r, w') ->
  disk w' = disk w /\ wire w' = wire w
  /\ match r with Ok _ => True | Raise e => after_block E end_height i e end.
Proof.
  unfold bind, progress_update, interrupt_point, after_block, print, ret, raise.
  destruct (Z.eqb (i mod 10000) 0) eqn:Hmod;
    [destruct (Z.eqb end_height 0) eqn:Hend |];
    destruct (sigint_after E i) eqn:Hint; simpl;
    intros [= <- <-]; simpl; repeat split; auto.
  all: left; repeat split; auto; lia.
Qed.

Lemma fetch_loop_spec (E : environment) (end_height : Z) (count : nat) :
  forall i data w data' r w',
    fetch_loop E end_height count i data w = (data', r, w') ->
    exists m : nat,
      (m <= count)%nat
      /\ data' = data ++ fetched E i m
      /\ Forall (fun h => block_outcome E h = Ok (value_at E h)) (range i m)
      /\ disk w' = disk w
      /\ match r with
         | Ok _ => m = count /\ wire w' = wire w ++ requests i m
         | Raise e =>
             ((m < count)%nat
              /\ block_outcome E (i + Z.of_nat m) = Raise e
              /\ wire w' = wire w ++ requests i (S m))
             \/ (exists m', m = S m'
                            /\ wire w' = wire w ++ requests i m
                            /\ after_block E end_height (i + Z.of_nat m') e)
         end.
Proof.
  induction count as [| count IH]; intros i data w data' r w' Hrun.
  - simpl in Hrun. injection Hrun as <- <- <-.
    exists 0%nat. simpl. rewrite !app_nil_r. repeat split; auto.
  - cbn [fetch_loop] in Hrun.
    destruct (get_block_run E i w) as (w1 & Hget & Hdisk1 & Hwire1).
    rewrite Hget in Hrun.
    destruct (block_outcome E i) as [v | e] eqn:Hout.
    + destruct ((progress_update i end_height ;;; interrupt_point E i) w1)
        as [[u | e] w2] eqn:Hbody;
        apply after_body in Hbody; destruct Hbody as (Hdisk2 & Hwire2 & Hwhy).
      * apply IH in Hrun. destruct Hrun as (m & Hm & Hdata & Hall & Hdisk & Hr).
        assert (Hv : value_at E i = v) by (unfold value_at; now rewrite Hout).
        exists (S m). split; [lia |]. split; [| split; [| split]].
        -- rewrite Hdata, <- app_assoc. unfold fetched. simpl. now rewrite Hv.
        -- simpl. constructor; [congruence | exact Hall].
        -- congruence.
        -- destruct r as [u' | e].
           ++ destruct Hr as [-> Hw]. split; [reflexivity |].
              rewrite Hw, Hwire2, Hwire1, <- app_assoc. reflexivity.
           ++ destruct Hr as [(Hlt & Hfail & Hw) | (m' & -> & Hw & Hwhy')].
              ** left. split; [lia |]. split.
                 --- rewrite <- Hfail. f_equal. lia.
                 --- rewrite Hw, Hwire2, Hwire1, <- app_assoc. reflexivity.
              ** right. exists (S m'). split; [reflexivity |]. split.
                 --- rewrite Hw, Hwire2, Hwire1, <- app_assoc. reflexivity.
                 --- replace (i + Z.of_nat (S m')) with (i + 1 + Z.of_nat m') by lia.
                     exact Hwhy'.
      * injection Hrun as <- <- <-.
        assert (Hv : value_at E i = v) by (unfold value_at; now rewrite Hout).
        exists 1%nat. split; [lia |]. split; [| split; [| split]].
        -- unfold fetched. simpl. now rewrite Hv.
        -- simpl. constructor; [congruence | constructor].
        -- congruence.
        -- right. exists 0%nat. split; [reflexivity |]. split.
           ++ rewrite Hwire2, Hwire1. reflexivity.
           ++ simpl. rewrite Z.add_0_r. exact Hwhy.
    + injection Hrun as <- <- <-.
      exists 0%nat. split; [lia |]. simpl. rewrite app_nil_r.
      split; [reflexivity |]. split; [constructor |]. split; [exact Hdisk1 |].
      left. split; [lia |]. split.
      * now rewrite Z.add_0_r.
      * exact Hwire1.
Qed.

Lemma block_outcome_raise (E : environment) (h : Z) (e : exn) :
  block_outcome E h = Raise e ->
  e <> SystemExit (Some 0) /\ e <> ZeroDivisionError /\ e <> FileNotFoundError.
Proof.
  unfold block_outcome, get_block_sprout_chain_value, bind, requests_post.
  destruct (zend E (getblock (str h))) as [| | | r]; simpl;
    try (intros [= <-]; repeat split; discriminate).
  destruct (Z.eqb (status_code r) 200); simpl;
    [| intros [= <-]; repeat split; discriminate].
  unfold response_json. destruct (body r) as [j |]; simpl;
    [| intros [= <-]; repeat split; discriminate].
  unfold lift, item, first.
  destruct j; simpl; try (intros [= <-]; repeat split; discriminate).
  destruct (dict_get "result" fields) as [j1 |]; simpl;
    [| intros [= <-]; repeat split; discriminate].
  destruct j1; simpl; try (intros [= <-]; repeat split; discriminate).
  destruct (dict_get "valuePools" fields0) as [j2 |]; simpl;
    [| intros [= <-]; repeat split; discriminate].
  destruct j2 as [| | | | s | items |]; simpl;
    try (intros [= <-]; repeat split; discriminate).
  - destruct s; simpl; intros [= <-]; repeat split; discriminate.
  - destruct items as [| j3 items]; simpl;
      [intros [= <-]; repeat split; discriminate |].
    destruct j3; simpl; try (intros [= <-]; repeat split; discriminate).
    destruct (dict_get "chainValue" fields1); simpl;
      [discriminate | intros [= <-]; repeat split; discriminate].
Qed.

(** ** The update and its flush *)

Lemma update_csv_file_spec (E : environment) (start_height end_height : Z) w r w' :
  update_csv_file E start_height end_height w = (r, w') ->
  exists data outcome w1,
    fetch_loop E end_height (Z.to_nat (end_height + 1 - start_height))
               start_height [] w = (data, outcome, w1)
    /\ match outcome with
       | Ok _ =>
           r = Ok tt /\ disk w' = Some (rows_of w1 ++ csv_rows data)
           /\ wire w' = wire w1
       | Raise KeyboardInterrupt =>
           r = Raise (SystemExit (Some 0))
           /\ disk w' = Some (rows_of w1 ++ csv_rows data)
           /\ wire w' = wire w1
       | Raise e => r = Raise e /\ w' = w1
       end.
Proof.
  unfold update_csv_file.
  destruct (fetch_loop E end_height (Z.to_nat (end_height + 1 - start_height))
                       start_height [] w) as [[data outcome] w1].
  intros Hrun. exists data, outcome, w1. split; [reflexivity |].
  destruct outcome as [u | e]; [| destruct e];
    unfold bind, ret, raise, print, writerows, rows_of in *; simpl in Hrun;
    injection Hrun as <- <-; simpl; auto.
Qed.

(** ** Reading the store *)

Lemma read_rows_app (a b : list row) :
  forall hs vs,
    read_rows (a ++ b) hs vs =
    match read_rows a hs vs with
    | Ok (hs', vs') => read_rows b hs' vs'
    | Raise e => Raise e
    end.
Proof.
  induction a as [| r a IH]; intros hs vs; simpl; [reflexivity |].
  destruct (subscript r 0) as [c0 |]; [| reflexivity].
  destruct (int c0) as [h |]; [| reflexivity].
  destruct (subscript r 1) as [c1 |]; [| reflexivity].
  destruct (float c1) as [x |]; [| reflexivity].
  apply IH.
Qed.

Lemma read_rows_acc (rows : list row) :
  forall hs vs,
    read_rows rows hs vs =
    match read_rows rows [] [] with
    | Ok (hs', vs') => Ok (hs ++ hs', vs ++ vs')
    | Raise e => Raise e
    end.
Proof.
  induction rows as [| r rows IH]; intros hs vs; simpl.
  - now rewrite !app_nil_r.
  - destruct (subscript r 0) as [c0 |]; [| reflexivity].
    destruct (int c0) as [h |]; [| reflexivity].
    destruct (subscript r 1) as [c1 |]; [| reflexivity].
    destruct (float c1) as [x |]; [| reflexivity].
    rewrite IH, (IH [h] [x]).
    destruct (read_rows rows [] []) as [[hs' vs'] | e]; [| reflexivity].
    now rewrite <- !app_assoc.
Qed.

(** Rows written from float entries read back as those entries. *)
Lemma read_rows_written (law : float_repr_roundtrip F) (entries : list (Z * pyfloat)) :
  read_rows (csv_rows (as_data entries)) [] []
  = Ok (map fst entries, map snd entries).
Proof.
  induction entries as [| [h x] entries IH]; simpl; [reflexivity |].
  rewrite int_str, law, read_rows_acc.
  fold (as_data entries). fold (csv_rows (as_data entries)).
  now rewrite IH.
Qed.

Lemma read_rows_fetched (law : float_repr_roundtrip F) (E : environment)
    (HE : float_valued E) (m : nat) :
  forall i,
    Forall (fun h => block_outcome E h = Ok (value_at E h)) (range i m) ->
    exists xs, map (value_at E) (range i m) = map JFloat xs
               /\ read_rows (csv_rows (fetched E i m)) [] [] = Ok (range i m, xs).
Proof.
  induction m as [| m IH]; intros i Hall.
  - exists []. split; reflexivity.
  - simpl in Hall. inversion Hall as [| ? ? Hi Hrest]; subst.
    destruct (IH _ Hrest) as (xs & Hvals & Hread).
    destruct (HE _ _ Hi) as [x Hx].
    exists (x :: xs). split; [simpl; now rewrite Hx, Hvals |].
    unfold fetched. simpl. rewrite Hx. simpl.
    rewrite int_str, law, read_rows_acc.
    fold (fetched E (i + 1) m). now rewrite Hread.
Qed.

(** ** Resolving the cursor *)

Lemma cursor_snoc (hs : list Z) (h : Z) : cursor (hs ++ [h]) = h.
Proof. unfold cursor. now rewrite rev_app_distr. Qed.

Lemma cursor_range (hs : list Z) (i : Z) (m : nat) :
  cursor (hs ++ range i m) = match m with O => cursor hs | S m' => i + Z.of_nat m' end.
Proof.
  destruct m as [| m]; [simpl; now rewrite app_nil_r |].
  now rewrite range_snoc, app_assoc, cursor_snoc.
Qed.

Lemma last_item_cursor (hs : list Z) :
  match last_item hs with
  | Ok h => cursor hs = h /\ hs <> []
  | Raise e => e = IndexError /\ hs = []
  end.
Proof.
  unfold last_item, cursor.
  destruct (rev hs) as [| h l] eqn:Hrev.
  - split; [reflexivity |]. apply (f_equal (@rev Z)) in Hrev.
    now rewrite rev_involutive in Hrev.
  - split; [reflexivity |]. intros ->. discriminate.
Qed.

Lemma series_disk (w : world) hs vs :
  series w = Ok (hs, vs) ->
  exists head rows, disk w = Some (head :: rows) /\ read_rows rows [] [] = Ok (hs, vs).
Proof.
  unfold series, get_csv_data.
  destruct (disk w) as [[| head rows] |]; simpl; try discriminate.
  intros H. now exists head, rows.
Qed.

Lemma resolve_spec (w : world) hs vs :
  initial_series w hs vs ->
  last_checked_block_of_csv w = (Ok (cursor hs), created w)
  /\ series (created w) = Ok (hs, vs).
Proof.
  intros [(Hnone & -> & ->) | Hser].
  - unfold last_checked_block_of_csv, get_last_block_from_csv, bind,
      get_csv_data, created, series.
    rewrite Hnone. simpl. split; reflexivity.
  - destruct (series_disk _ _ _ Hser) as (head & rows & Hdisk & Hread).
    assert (Hsame : created w = w).
    { unfold created. rewrite Hdisk. destruct w; simpl in *. now subst. }
    rewrite Hsame. split; [| exact Hser].
    unfold last_checked_block_of_csv, get_last_block_from_csv, bind,
      get_csv_data, lift.
    rewrite Hdisk, Hread. simpl.
    pose proof (last_item_cursor hs) as Hlast.
    destruct (last_item hs) as [h | e].
    + destruct Hlast as [-> _]. reflexivity.
    + destruct Hlast as [-> ->]. reflexivity.
Qed.

(** ** One run of the synchronisation, taken apart *)

Lemma synchronize_spec (E : environment) (w : world) hs vs r w' :
  initial_series w hs vs ->
  synchronize E w = (r, w') ->
  match tip_outcome E with
  | Ok (Some tip) =>
      if cursor hs <? tip
      then exists w0,
          update_csv_file E (cursor hs + 1) tip w0 = (r, w')
          /\ disk w0 = disk (created w)
          /\ wire w0 = wire w ++ [getblockcount]
      else r = Ok tt /\ disk w' = disk (created w)
           /\ wire w' = wire w ++ [getblockcount]
  | Ok None =>
      r = Raise TypeError /\ disk w' = disk (created w)
      /\ wire w' = wire w ++ [getblockcount]
  | Raise e =>
      r = Raise e /\ disk w' = disk (created w)
      /\ wire w' = wire w ++ [getblockcount]
  end.
Proof.
  intros Hinit. destruct (resolve_spec _ _ _ Hinit) as [Hres _].
  unfold synchronize, bind. rewrite Hres, get_tip_run.
  destruct (tip_outcome E) as [[tip |] | e]; simpl.
  - destruct (cursor hs <? tip).
    + intros Hrun. eexists. split; [exact Hrun |]. split; reflexivity.
    + intros [= <- <-]. repeat split.
  - intros [= <- <-]. repeat split.
  - intros [= <- <-]. repeat split.
Qed.

(** ** The verifier *)

Lemma printed_nil (w : world) : printed w [] = w.
Proof. destruct w. unfold printed. simpl. now rewrite app_nil_r. Qed.

Lemma printed_printed (w : world) (a b : list string) :
  printed (printed w a) b = printed w (a ++ b).
Proof. unfold printed. simpl. now rewrite app_assoc. Qed.

Lemma verify_loop_spec (blocks : list Z) (rest : list Z) :
  forall pre previous w,
    blocks = pre ++ previous :: rest ->
    verify_loop blocks (List.length rest) (S (List.length pre)) w
    = (Ok tt, printed w (map anomaly_line (anomalies (previous :: rest)))).
Proof.
  induction rest as [| entry rest IH]; intros pre previous w Hblocks.
  - simpl. now rewrite printed_nil.
  - assert (Hprev : nth (S (List.length pre) - 1) blocks 0 = previous).
    { rewrite Hblocks. replace (S (List.length pre) - 1)%nat with (List.length pre) by lia.
      apply nth_middle. }
    assert (Hblocks' : blocks = (pre ++ [previous]) ++ entry :: rest)
      by now rewrite <- app_assoc.
    assert (Hentry : nth (S (List.length pre)) blocks 0 = entry).
    { rewrite Hblocks'.
      replace (S (List.length pre)) with (List.length (pre ++ [previous]))
        by (rewrite length_app; simpl; lia).
      apply nth_middle. }
    cbn [verify_loop List.length]. unfold bind. rewrite Hprev, Hentry.
    specialize (IH (pre ++ [previous]) entry).
    rewrite length_app in IH. cbn [List.length] in IH.
    replace (List.length pre + 1)%nat with (S (List.length pre)) in IH by lia.
    cbn [anomalies].
    destruct (entry =? previous + 1); cbn [negb].
    + unfold ret. rewrite (IH w Hblocks'). reflexivity.
    + unfold print. cbn [map app].
      change {| disk := disk w; stdout := stdout w ++ [anomaly_message entry previous];
                wire := wire w |}
        with (printed w [anomaly_line (entry, previous)]).
      rewrite (IH _ Hblocks'), printed_printed. reflexivity.
Qed.

Lemma anomalies_range (m : nat) : forall i, anomalies (range i m) = [].
Proof.
  induction m as [| m IH]; intros i; [reflexivity |].
  specialize (IH (i + 1)). simpl. destruct m as [| m]; [reflexivity |].
  simpl in *. now rewrite Z.eqb_refl.
Qed.

Lemma in_anomalies (blocks : list Z) (entry previous : Z) :
  In (entry, previous) (anomalies blocks) <->
  exists pre post, blocks = pre ++ previous :: entry :: post /\ entry <> previous + 1.
Proof.
  induction blocks as [| p rest IH].
  - simpl. split; [tauto |].
    intros (pre & post & H & _). destruct pre; discriminate.
  - cbn [anomalies]. destruct rest as [| e rest'].
    + split; [simpl; tauto |].
      intros (pre & post & H & _).
      destruct pre as [| ? [| ? ?]]; discriminate.
    + rewrite in_app_iff, IH. split.
      * intros [Hhere | (pre & post & Hrest & Hne)].
        -- destruct (Z.eqb_spec e (p + 1)) as [| Hne]; [contradiction |].
           destruct Hhere as [[= <- <-] | []].
           now exists [], rest'.
        -- exists (p :: pre), post. now rewrite Hrest.
      * intros (pre & post & Hblocks & Hne).
        destruct pre as [| p' pre].
        -- injection Hblocks as -> -> ->. left.
           destruct (Z.eqb_spec entry (previous + 1)); [contradiction | now left].
        -- injection Hblocks as -> Hrest. right. now exists pre, post.
Qed.

Lemma anomalies_cons (previous entry : Z) (rest : list Z) :
  anomalies (previous :: entry :: rest)
  = (if entry =? previous + 1 then [] else [(entry, previous)])
    ++ anomalies (entry :: rest).
Proof. reflexivity. Qed.

Lemma anomalies_count (blocks : list Z) :
  List.length (anomalies blocks)
  = List.length (filter (breaks blocks) (seq 0 (List.length blocks - 1))).
Proof.
  destruct blocks as [| previous rest]; [reflexivity |].
  cbn [List.length]. replace (S (List.length rest) - 1)%nat with (List.length rest) by lia.
  revert previous.
  induction rest as [| entry rest IH]; intros previous; [reflexivity |].
  rewrite anomalies_cons, length_app, IH.
  cbn [List.length seq filter].
  rewrite <- seq_shift, filter_map_swap.
  change (fun a => breaks (previous :: entry :: rest) (S a)) with (breaks (entry :: rest)).
  unfold breaks at 2. cbn [nth].
  destruct (entry =? previous + 1); cbn [negb List.length]; now rewrite length_map.
Qed.

Lemma verify_csv_file_spec (w : world) hs vs :
  series w = Ok (hs, vs) ->
  verify_csv_file w = (Ok tt, printed w (map anomaly_line (anomalies hs))).
Proof.
  intros Hser.
  unfold verify_csv_file, bind.
  unfold series in Hser. destruct (get_csv_data w) as [res w1] eqn:Hload.
  assert (w1 = w) as ->.
  { unfold get_csv_data in Hload.
    destruct (disk w) as [[| ? ?] |]; now injection Hload. }
  simpl in Hser. subst res. cbn [fst].
  destruct hs as [| h rest].
  - simpl. now rewrite printed_nil.
  - cbn [List.length]. replace (S (List.length rest) - 1)%nat with (List.length rest) by lia.
    now apply (verify_loop_spec (h :: rest) rest []).
Qed.

(** C6.  [verify_csv_file] goes through every adjacent pair of the stored
    heights and prints one line for each pair that breaks contiguity,
    naming the offending height and the one it followed; it does not stop
    at the first: the lines are as many as the pairs that break
    contiguity.  On the heights 0,1,2,4,5,7 these are exactly the two
    jumps 2 to 4 and 5 to 7, and on a contiguous series there is none. *)
Theorem verify_reports_every_anomaly :
  (forall w hs vs,
      series w = Ok (hs, vs) ->
      verify_csv_file w = (Ok tt, printed w (map anomaly_line (anomalies hs))))
  /\ (forall blocks entry previous,
         In (entry, previous) (anomalies blocks) <->
         exists pre post,
           blocks = pre ++ previous :: entry :: post /\ entry <> previous + 1)
  /\ (forall blocks,
         List.length (anomalies blocks)
         = List.length (filter (breaks blocks) (seq 0 (List.length blocks - 1))))
  /\ anomalies [0; 1; 2; 4; 5; 7] = [(4, 2); (7, 5)]
  /\ (forall i m, anomalies (range i m) = []).
Proof.
  split; [| split; [| split; [| split]]].
  - exact verify_csv_file_spec.
  - exact in_anomalies.
  - exact anomalies_count.
  - reflexivity.
  - intros i m. apply anomalies_range.
Qed.

(** ** Runs that complete, runs that are cancelled *)

Lemma requests_length (i : Z) (m : nat) : List.length (requests i m) = m.
Proof. unfold requests. now rewrite length_map, range_length. Qed.

Lemma series_of_disk (w w' : world) : disk w' = disk w -> series w' = series w.
Proof.
  unfold series, get_csv_data. intros ->.
  destruct (disk w) as [[| ? ?] |]; reflexivity.
Qed.

Lemma rows_of_disk (w w' : world) : disk w' = disk w -> rows_of w' = rows_of w.
Proof. unfold rows_of. now intros ->. Qed.

Lemma series_after_append (w w' : world) data hs vs hs2 vs2 :
  series w = Ok (hs, vs) ->
  read_rows (csv_rows data) [] [] = Ok (hs2, vs2) ->
  disk w' = Some (rows_of w ++ csv_rows data) ->
  series w' = Ok (hs ++ hs2, vs ++ vs2).
Proof.
  intros Hser Hnew Hdisk.
  destruct (series_disk _ _ _ Hser) as (head & rows & Hd & Hread).
  unfold rows_of in Hdisk. rewrite Hd in Hdisk.
  unfold series, get_csv_data. rewrite Hdisk. simpl.
  now rewrite read_rows_app, Hread, read_rows_acc, Hnew.
Qed.

Lemma completed_run (E : environment) (w w' : world) hs vs :
  initial_series w hs vs ->
  synchronize E w = (Ok tt, w') ->
  exists tip,
    tip_outcome E = Ok (Some tip)
    /\ Forall (fun h => block_outcome E h = Ok (value_at E h))
              (range (cursor hs + 1) (Z.to_nat (tip - cursor hs)))
    /\ disk w' = Some (rows_of (created w)
                        ++ csv_rows (fetched E (cursor hs + 1) (Z.to_nat (tip - cursor hs))))
    /\ wire w' = wire w ++ getblockcount
                         :: requests (cursor hs + 1) (Z.to_nat (tip - cursor hs)).
Proof.
  intros Hinit Hrun.
  pose proof (synchronize_spec _ _ _ _ _ _ Hinit Hrun) as Hspec.
  destruct (tip_outcome E) as [[tip |] | e];
    [| destruct Hspec as [[=] _] | destruct Hspec as [[=] _]].
  exists tip. split; [reflexivity |].
  destruct (Z.ltb_spec (cursor hs) tip) as [Hlt | Hge].
  - destruct Hspec as (w0 & Hupd & Hdisk0 & Hwire0).
    apply update_csv_file_spec in Hupd.
    destruct Hupd as (data & outcome & w1 & Hloop & Hout).
    apply fetch_loop_spec in Hloop.
    destruct Hloop as (m & _ & Hdata & Hall & Hdisk1 & Hr).
    replace (tip + 1 - (cursor hs + 1)) with (tip - cursor hs) in * by lia.
    destruct outcome as [u | e].
    + destruct Hr as [-> Hwire1]. destruct Hout as (_ & Hdisk & Hwire).
      split; [exact Hall |]. split.
      * rewrite Hdisk, Hdata. simpl.
        rewrite (rows_of_disk w0 w1 Hdisk1), (rows_of_disk (created w) w0 Hdisk0).
        reflexivity.
      * rewrite Hwire, Hwire1, Hwire0, <- app_assoc. reflexivity.
    + destruct e; destruct Hout as [[=] _].
  - destruct Hspec as (_ & Hdisk & Hwire).
    replace (Z.to_nat (tip - cursor hs)) with 0%nat by lia.
    simpl. rewrite app_nil_r. split; [constructor |]. split; assumption.
Qed.

Lemma cancelled_run (E : environment) (w w' : world) hs vs :
  initial_series w hs vs ->
  synchronize E w = (Raise (SystemExit (Some 0)), w') ->
  exists (tip : Z) (N : nat),
    tip_outcome E = Ok (Some tip)
    /\ (N <= Z.to_nat (tip - cursor hs))%nat
    /\ Forall (fun h => block_outcome E h = Ok (value_at E h))
              (range (cursor hs + 1) N)
    /\ disk w' = Some (rows_of (created w) ++ csv_rows (fetched E (cursor hs + 1) N))
    /\ (((N < Z.to_nat (tip - cursor hs))%nat
         /\ block_outcome E (cursor hs + 1 + Z.of_nat N) = Raise KeyboardInterrupt
         /\ wire w' = wire w ++ getblockcount :: requests (cursor hs + 1) (S N))
        \/ (exists N', N = S N'
                       /\ sigint_after E (cursor hs + 1 + Z.of_nat N') = true
                       /\ wire w' = wire w ++ getblockcount
                                            :: requests (cursor hs + 1) N)).
Proof.
  intros Hinit Hrun.
  pose proof (synchronize_spec _ _ _ _ _ _ Hinit Hrun) as Hspec.
  destruct (tip_outcome E) as [[tip |] | e] eqn:Htip;
    [| destruct Hspec as [[=] _]
     | destruct Hspec as [[= <-] _]; now apply tip_outcome_raise in Htip].
  destruct (Z.ltb_spec (cursor hs) tip) as [Hlt | Hge];
    [| destruct Hspec as [[=] _]].
  destruct Hspec as (w0 & Hupd & Hdisk0 & Hwire0).
  apply update_csv_file_spec in Hupd.
  destruct Hupd as (data & outcome & w1 & Hloop & Hout).
  apply fetch_loop_spec in Hloop.
  destruct Hloop as (m & Hm & Hdata & Hall & Hdisk1 & Hr).
  replace (tip + 1 - (cursor hs + 1)) with (tip - cursor hs) in * by lia.
  destruct outcome as [u | e]; [destruct Hout as [[=] _] |].
  assert (Hcases : e = KeyboardInterrupt \/ e = SystemExit (Some 0)).
  { destruct e; try (destruct Hout as [[=] _]; fail); auto.
    destruct Hout as [[= <-] _]. auto. }
  destruct Hcases as [-> | ->].
  - destruct Hout as (_ & Hdisk & Hwire).
    exists tip, m. split; [reflexivity |]. split; [exact Hm |]. split; [exact Hall |].
    split.
    + rewrite Hdisk, Hdata. simpl.
      rewrite (rows_of_disk w0 w1 Hdisk1), (rows_of_disk (created w) w0 Hdisk0).
      reflexivity.
    + destruct Hr as [(Hlt' & Hfail & Hw) | (m' & -> & Hw & Hwhy)].
      * left. split; [exact Hlt' |]. split; [exact Hfail |].
        rewrite Hwire, Hw, Hwire0, <- app_assoc. reflexivity.
      * right. exists m'. split; [reflexivity |]. split.
        -- destruct Hwhy as [[[=] _] | [_ Hint]]. exact Hint.
        -- rewrite Hwire, Hw, Hwire0, <- app_assoc. reflexivity.
  - exfalso.
    destruct Hr as [(_ & Hfail & _) | (m' & _ & _ & Hwhy)].
    + now apply block_outcome_raise in Hfail.
    + destruct Hwhy as [[[=] _] | [[=] _]].
Qed.

Lemma created_id (w : world) hs vs : series w = Ok (hs, vs) -> created w = w.
Proof.
  intros Hser. destruct (series_disk _ _ _ Hser) as (head & rows & Hdisk & _).
  unfold created. rewrite Hdisk. destruct w; simpl in *. now subst.
Qed.

Lemma cursor_range0 (n : nat) : cursor (range 0 n) = Z.of_nat n - 1.
Proof.
  change (range 0 n) with ([] ++ range 0 n). rewrite cursor_range.
  destruct n; [reflexivity | lia].
Qed.

Lemma interrupted_in_flight (E : environment) (h : Z) :
  block_outcome E h = Raise KeyboardInterrupt ->
  zend E (getblock (str h)) = Interrupted.
Proof.
  unfold block_outcome, get_block_sprout_chain_value, bind, requests_post.
  destruct (zend E (getblock (str h))) as [| | | r]; simpl;
    try discriminate; [reflexivity |].
  destruct (Z.eqb (status_code r) 200); simpl; [| discriminate].
  unfold response_json. destruct (body r) as [j |]; simpl; [| discriminate].
  unfold lift, item, first.
  destruct j; simpl; try discriminate.
  destruct (dict_get "result" fields) as [j1 |]; simpl; [| discriminate].
  destruct j1; simpl; try discriminate.
  destruct (dict_get "valuePools" fields0) as [j2 |]; simpl; [| discriminate].
  destruct j2 as [| | | | s | items |]; simpl; try discriminate.
  - destruct s; discriminate.
  - destruct items as [| j3 items]; simpl; [discriminate |].
    destruct j3; simpl; try discriminate.
    destruct (dict_get "chainValue" fields1); discriminate.
Qed.

Lemma update_first_request (E : environment) (start_height end_height : Z) w r w' :
  start_height <= end_height ->
  update_csv_file E start_height end_height w = (r, w') ->
  exists later, wire w' = wire w ++ getblock (str start_height) :: later.
Proof.
  intros Hle Hupd.
  apply update_csv_file_spec in Hupd.
  destruct Hupd as (data & outcome & w1 & Hloop & Hout).
  apply fetch_loop_spec in Hloop.
  destruct Hloop as (m & _ & _ & _ & _ & Hr).
  assert (Hwire : wire w' = wire w1).
  { destruct outcome as [u | e]; [now destruct Hout as (_ & _ & ?) |].
    destruct e; try (now destruct Hout as [_ ->]).
    now destruct Hout as (_ & _ & ?). }
  rewrite Hwire.
  destruct (Z.to_nat (end_height + 1 - start_height)) as [| c] eqn:Hcount; [lia |].
  destruct outcome as [u | e].
  - destruct Hr as [-> ->]. now exists (requests (start_height + 1) c).
  - destruct Hr as [(_ & _ & ->) | (m' & -> & -> & _)].
    + now exists (requests (start_height + 1) m).
    + now exists (requests (start_height + 1) m').
Qed.

Lemma node_float_valued (tip : Z) (pool : Z -> pyfloat) (sigint : Z -> bool) :
  float_valued (node_with tip (healthy pool) sigint).
Proof.
  intros h v. unfold block_outcome, get_block_sprout_chain_value, bind, requests_post.
  simpl. rewrite int_str. simpl. intros [= <-]. eauto.
Qed.

Section RoundTrip.
Hypothesis law : float_repr_roundtrip F.

Lemma completed_series (E : environment) (w w' : world) hs vs :
  float_valued E ->
  initial_series w hs vs ->
  synchronize E w = (Ok tt, w') ->
  exists tip xs,
    tip_outcome E = Ok (Some tip)
    /\ series w' = Ok (hs ++ range (cursor hs + 1) (Z.to_nat (tip - cursor hs)),
                       vs ++ xs).
Proof.
  intros HE Hinit Hrun.
  destruct (completed_run _ _ _ _ _ Hinit Hrun) as (tip & Htip & Hall & Hdisk & _).
  destruct (read_rows_fetched law E HE _ _ Hall) as (xs & _ & Hread).
  exists tip, xs. split; [exact Htip |].
  destruct (resolve_spec _ _ _ Hinit) as [_ Hser].
  exact (series_after_append _ _ _ _ _ _ _ Hser Hread Hdisk).
Qed.

(** C10.  Entries appended to an empty store are what a later load
    returns: the same heights with the same values, in the same order. *)
Theorem append_then_load (w : world) (entries : list (Z * pyfloat)) :
  series w = Ok ([], []) ->
  series (append entries w) = Ok (map fst entries, map snd entries).
Proof.
  intros Hempty.
  apply (series_after_append w (append entries w) (as_data entries) [] []);
    [exact Hempty | now apply read_rows_written | reflexivity].
Qed.

(** C3, amended.  A store whose heights are 0, 1, 2, ... without a gap
    still is one after a synchronisation that succeeds against a node
    whose values are floats, and the verifier then prints nothing: it
    finds no anomaly. *)
Theorem successful_sync_keeps_contiguity (E : environment) (w w' : world)
    (n : nat) (vs : list pyfloat) :
  float_valued E ->
  initial_series w (range 0 n) vs ->
  synchronize E w = (Ok tt, w') ->
  exists n' vs',
    (n <= n')%nat
    /\ series w' = Ok (range 0 n', vs')
    /\ verify_csv_file w' = (Ok tt, w').
Proof.
  intros HE Hinit Hrun.
  destruct (completed_series E w w' _ _ HE Hinit Hrun) as (tip & xs & _ & Hser).
  rewrite cursor_range0 in Hser.
  replace (Z.of_nat n - 1 + 1) with (0 + Z.of_nat n) in Hser by lia.
  rewrite <- range_app in Hser.
  eexists _, _. split; [| split; [exact Hser |]].
  - lia.
  - rewrite (verify_csv_file_spec _ _ _ Hser), anomalies_range.
    simpl. now rewrite printed_nil.
Qed.

(** C2, amended.  Against a node whose values are floats, a run that the
    interrupt cancels after [N] of its planned heights were fetched leaves
    the store, which loaded or did not exist, with what it held before
    plus exactly these first [N] entries, in order and without a gap; its
    cursor is then [N] heights further, and the next run asks first for
    the height that follows: for a store that was empty, height [N]. *)
Theorem cancelled_sync_keeps_fetched_prefix (E : environment) (w w' : world)
    (hs : list Z) (vs : list pyfloat) :
  float_valued E ->
  initial_series w hs vs ->
  synchronize E w = (Raise (SystemExit (Some 0)), w') ->
  exists (tip : Z) (N : nat) (xs : list pyfloat),
    tip_outcome E = Ok (Some tip)
    /\ (N <= Z.to_nat (tip - cursor hs))%nat
    /\ Forall (fun h => block_outcome E h = Ok (value_at E h))
              (range (cursor hs + 1) N)
    /\ (wire w' = wire w ++ getblockcount :: requests (cursor hs + 1) N
        \/ (wire w' = wire w ++ getblockcount :: requests (cursor hs + 1) (S N)
            /\ block_outcome E (cursor hs + 1 + Z.of_nat N) = Raise KeyboardInterrupt))
    /\ disk w' = Some (rows_of (created w) ++ csv_rows (fetched E (cursor hs + 1) N))
    /\ map (value_at E) (range (cursor hs + 1) N) = map JFloat xs
    /\ series w' = Ok (hs ++ range (cursor hs + 1) N, vs ++ xs)
    /\ last_checked_block_of_csv w' = (Ok (cursor hs + Z.of_nat N), w')
    /\ (forall E' tip' r w'',
           tip_outcome E' = Ok (Some tip') ->
           cursor hs + Z.of_nat N < tip' ->
           synchronize E' w' = (r, w'') ->
           exists later,
             wire w'' = wire w' ++ getblockcount
                               :: getblock (str (cursor hs + 1 + Z.of_nat N)) :: later).
Proof.
  intros HE Hinit Hrun.
  destruct (cancelled_run _ _ _ _ _ Hinit Hrun)
    as (tip & N & Htip & HN & Hall & Hdisk & Hhow).
  destruct (read_rows_fetched law E HE _ _ Hall) as (xs & Hvals & Hread).
  destruct (resolve_spec _ _ _ Hinit) as [_ Hser0].
  pose proof (series_after_append _ _ _ _ _ _ _ Hser0 Hread Hdisk) as Hser.
  assert (Hinit' : initial_series w' (hs ++ range (cursor hs + 1) N) (vs ++ xs))
    by now right.
  assert (Hcur : cursor (hs ++ range (cursor hs + 1) N) = cursor hs + Z.of_nat N).
  { rewrite cursor_range. destruct N; lia. }
  exists tip, N, xs.
  split; [exact Htip |]. split; [exact HN |]. split; [exact Hall |].
  split; [| split; [exact Hdisk |]; split; [exact Hvals |]; split; [exact Hser |]; split].
  - destruct Hhow as [(_ & Hfail & Hw) | (N' & _ & _ & Hw)]; [right | left]; auto.
  - destruct (resolve_spec _ _ _ Hinit') as [Hres _].
    now rewrite Hres, Hcur, (created_id _ _ _ Hser).
  - intros E' tip' r w'' Htip' Hlt Hrun'.
    pose proof (synchronize_spec _ _ _ _ _ _ Hinit' Hrun') as Hspec.
    rewrite Htip', Hcur in Hspec.
    destruct (Z.ltb_spec (cursor hs + Z.of_nat N) tip') as [_ | Hge]; [| lia].
    destruct Hspec as (w0 & Hupd & _ & Hwire0).
    apply update_first_request in Hupd; [| lia].
    destruct Hupd as [later Hw]. exists later.
    rewrite Hw, Hwire0, <- app_assoc.
    replace (cursor hs + Z.of_nat N + 1) with (cursor hs + 1 + Z.of_nat N) by lia.
    reflexivity.
Qed.

(** C5, amended.  After a run that completed against the tip [T] and a
    node whose values are floats, on a store that loaded or did not exist,
    a second run against the same tip sends the tip request and nothing
    else, and leaves the file as it is.  Against a later tip [T'] a second
    run that completes fetches and appends exactly the heights from [L + 1]
    to [T'], where [L] is the last stored height after the first run, the
    larger of [T] and the cursor that the first run found: these are
    [T + 1] to [T'] when the store was not ahead of the tip [T]. *)
Theorem second_sync_fetches_from_cursor (E E' : environment) (w w1 : world)
    (hs : list Z) (vs : list pyfloat) (T : Z) :
  float_valued E ->
  initial_series w hs vs ->
  tip_outcome E = Ok (Some T) ->
  synchronize E w = (Ok tt, w1) ->
  forall (T' : Z) r w2,
    tip_outcome E' = Ok (Some T') ->
    synchronize E' w1 = (r, w2) ->
    (T' = T ->
     r = Ok tt /\ disk w2 = disk w1 /\ wire w2 = wire w1 ++ [getblockcount])
    /\ (T < T' -> r = Ok tt ->
        disk w2 = Some (rows_of w1
                        ++ csv_rows (fetched E' (Z.max (cursor hs) T + 1)
                                             (Z.to_nat (T' - Z.max (cursor hs) T))))
        /\ wire w2 = wire w1 ++ getblockcount
                             :: requests (Z.max (cursor hs) T + 1)
                                         (Z.to_nat (T' - Z.max (cursor hs) T)))
    /\ (T < T' -> cursor hs <= T -> r = Ok tt ->
        disk w2 = Some (rows_of w1
                        ++ csv_rows (fetched E' (T + 1) (Z.to_nat (T' - T))))
        /\ wire w2 = wire w1 ++ getblockcount
                             :: requests (T + 1) (Z.to_nat (T' - T))).
Proof.
  intros HE Hinit Htip Hrun T' r w2 Htip' Hrun'.
  destruct (completed_series E w w1 _ _ HE Hinit Hrun) as (tip & xs & Htip0 & Hser).
  rewrite Htip in Htip0. injection Htip0 as <-.
  set (hs1 := hs ++ range (cursor hs + 1) (Z.to_nat (T - cursor hs))) in *.
  assert (Hcur : cursor hs1 = Z.max (cursor hs) T).
  { unfold hs1. rewrite cursor_range.
    destruct (Z.to_nat (T - cursor hs)) eqn:Hm; lia. }
  assert (Hinit1 : initial_series w1 hs1 (vs ++ xs)) by now right.
  pose proof (created_id _ _ _ Hser) as Hsame.
  assert (Hlater : r = Ok tt ->
            disk w2 = Some (rows_of w1
                            ++ csv_rows (fetched E' (Z.max (cursor hs) T + 1)
                                                 (Z.to_nat (T' - Z.max (cursor hs) T))))
            /\ wire w2 = wire w1 ++ getblockcount
                                 :: requests (Z.max (cursor hs) T + 1)
                                             (Z.to_nat (T' - Z.max (cursor hs) T))).
  { intros ->.
    destruct (completed_run _ _ _ _ _ Hinit1 Hrun') as (tip & Htip1 & _ & Hdisk & Hwire).
    rewrite Htip' in Htip1. injection Htip1 as <-.
    rewrite Hcur, Hsame in *. split; assumption. }
  split; [| split].
  - intros ->.
    pose proof (synchronize_spec _ _ _ _ _ _ Hinit1 Hrun') as Hspec.
    rewrite Htip', Hcur, Hsame in Hspec.
    destruct (Z.ltb_spec (Z.max (cursor hs) T) T) as [Hlt | _]; [lia |].
    exact Hspec.
  - intros _. exact Hlater.
  - intros _ Hle. replace (Z.max (cursor hs) T) with T in Hlater by lia.
    exact Hlater.
Qed.

End RoundTrip.

(** C9, amended.  A run is cancelled in one of two ways.  Either the
    interrupt is raised inside the request for a height, while that request
    is in flight: the call is abandoned without a value and nothing is
    recorded for that height.  Or it arrives once a block is recorded,
    before the next request.  Either way no request for a later height is
    sent, and the entries recorded so far are written to the file. *)
Theorem cancellation_stops_the_loop (E : environment) (w w' : world)
    (hs : list Z) (vs : list pyfloat) :
  initial_series w hs vs ->
  synchronize E w = (Raise (SystemExit (Some 0)), w') ->
  exists N : nat,
    disk w' = Some (rows_of (created w) ++ csv_rows (fetched E (cursor hs + 1) N))
    /\ ((zend E (getblock (str (cursor hs + 1 + Z.of_nat N))) = Interrupted
         /\ wire w' = wire w ++ getblockcount :: requests (cursor hs + 1) (S N))
        \/ (exists N', N = S N'
                       /\ sigint_after E (cursor hs + 1 + Z.of_nat N') = true
                       /\ wire w' = wire w ++ getblockcount
                                            :: requests (cursor hs + 1) N)).
Proof.
  intros Hinit Hrun.
  destruct (cancelled_run _ _ _ _ _ Hinit Hrun)
    as (tip & N & _ & _ & _ & Hdisk & Hhow).
  exists N. split; [exact Hdisk |].
  destruct Hhow as [(_ & Hfail & Hw) | Hafter]; [left | right; exact Hafter].
  split; [now apply interrupted_in_flight | exact Hw].
Qed.

(** C1, amended.  When a value request of a run fails with anything but
    the interrupt, after [k] earlier requests of the run were answered with
    a value, the run ends with that error, and the file holds what it held
    when the run began: the [k] entries fetched before the failure are not
    written. *)
Theorem failed_fetch_surfaces_and_drops_buffer (E : environment) (w w' : world)
    (hs : list Z) (vs : list pyfloat) (k : nat) (e : exn) r :
  initial_series w hs vs ->
  synchronize E w = (r, w') ->
  wire w' = wire w ++ getblockcount :: requests (cursor hs + 1) (S k) ->
  block_outcome E (cursor hs + 1 + Z.of_nat k) = Raise e ->
  e <> KeyboardInterrupt ->
  r = Raise e
  /\ Forall (fun h => block_outcome E h = Ok (value_at E h)) (range (cursor hs + 1) k)
  /\ disk w' = disk (created w)
  /\ series w' = Ok (hs, vs).
Proof.
  intros Hinit Hrun Hsent Hfail Hne.
  destruct (resolve_spec _ _ _ Hinit) as [_ Hser0].
  assert (Hgoal : r = Raise e
                  /\ Forall (fun h => block_outcome E h = Ok (value_at E h))
                            (range (cursor hs + 1) k)
                  /\ disk w' = disk (created w)).
  { pose proof (synchronize_spec _ _ _ _ _ _ Hinit Hrun) as Hspec.
    assert (Hno : wire w' <> wire w ++ [getblockcount]).
    { rewrite Hsent. intros H. apply app_inv_head in H. discriminate. }
    destruct (tip_outcome E) as [[tip |] | e0];
      [| now destruct Hspec as (_ & _ & ?) | now destruct Hspec as (_ & _ & ?)].
    destruct (cursor hs <? tip); [| now destruct Hspec as (_ & _ & ?)].
    destruct Hspec as (w0 & Hupd & Hdisk0 & Hwire0).
    apply update_csv_file_spec in Hupd.
    destruct Hupd as (data & outcome & w1 & Hloop & Hout).
    apply fetch_loop_spec in Hloop.
    destruct Hloop as (m & _ & _ & Hall & Hdisk1 & Hr).
    assert (Hwire : wire w' = wire w1).
    { destruct outcome as [u | e0]; [now destruct Hout as (_ & _ & ?) |].
      destruct e0; try (now destruct Hout as [_ ->]).
      now destruct Hout as (_ & _ & ?). }
    assert (Hat : forall m0, wire w1 = wire w0 ++ requests (cursor hs + 1) m0 -> m0 = S k).
    { intros m0 Hw1. rewrite Hwire, Hw1, Hwire0, <- app_assoc in Hsent.
      apply app_inv_head in Hsent. injection Hsent as Hreq.
      apply (f_equal (@List.length request)) in Hreq.
      now rewrite !requests_length in Hreq. }
    assert (Hok : forall m0, m0 = S k ->
                   Forall (fun h => block_outcome E h = Ok (value_at E h))
                          (range (cursor hs + 1) m0) -> False).
    { intros m0 -> Hall'. rewrite range_snoc in Hall'.
      apply Forall_app in Hall'. destruct Hall' as [_ Hlast].
      inversion Hlast as [| ? ? Hk _]; subst. congruence. }
    destruct outcome as [u | e0].
    - exfalso. destruct Hr as [_ Hw1]. apply (Hok m (Hat _ Hw1) Hall).
    - destruct Hr as [(_ & Hfail0 & Hw1) | (m' & -> & Hw1 & _)].
      + apply Hat in Hw1. injection Hw1 as ->.
        rewrite Hfail in Hfail0. injection Hfail0 as <-.
        destruct e; try contradiction;
          destruct Hout as [-> ->]; repeat split; auto; congruence.
      + exfalso. apply (Hok _ (Hat _ Hw1) Hall). }
  destruct Hgoal as (Hr & Hall & Hdisk).
  repeat split; try assumption.
  now rewrite (series_of_disk _ _ Hdisk).
Qed.


(** ** The synchronisation inside [main] *)

(** An exception that ends the synchronisation ends the script. *)
Lemma main_surfaces_sync_errors (E : environment) (args : arguments) w e w' :
  verify_data args = false ->
  no_update args = false ->
  plot_from_height args = None ->
  synchronize E w = (Raise e, w') ->
  main E args w = (Raise e, w').
Proof.
  intros Hv Hu Hp Hrun. unfold main, bind. rewrite Hv, Hu, Hp. simpl.
  now rewrite Hrun.
Qed.

(** ** Runs against a node that answers *)

Lemma healthy_run_completes (E : environment) (w : world) hs vs (tip : Z) :
  initial_series w hs vs ->
  tip_outcome E = Ok (Some tip) ->
  tip <> 0 ->
  (forall h, cursor hs < h <= tip -> exists v, block_outcome E h = Ok v) ->
  (forall h, sigint_after E h = false) ->
  exists w', synchronize E w = (Ok tt, w').
Proof.
  intros Hinit Htip Hnz Hhealthy Hquiet.
  destruct (synchronize E w) as [r w'] eqn:Hrun.
  exists w'. f_equal.
  pose proof (synchronize_spec _ _ _ _ _ _ Hinit Hrun) as Hspec.
  rewrite Htip in Hspec.
  destruct (Z.ltb_spec (cursor hs) tip) as [Hlt | Hge]; [| now destruct Hspec].
  destruct Hspec as (w0 & Hupd & _).
  apply update_csv_file_spec in Hupd.
  destruct Hupd as (data & outcome & w1 & Hloop & Hout).
  apply fetch_loop_spec in Hloop.
  destruct Hloop as (m & Hm & _ & _ & _ & Hr).
  destruct outcome as [u | e]; [now destruct Hout |].
  exfalso.
  destruct Hr as [(Hlt' & Hfail & _) | (m' & _ & _ & Hwhy)].
  - destruct (Hhealthy (cursor hs + 1 + Z.of_nat m)) as [v Hv]; [lia | congruence].
  - destruct Hwhy as [(_ & _ & H0) | [_ Hint]]; [contradiction |].
    rewrite Hquiet in Hint. discriminate.
Qed.

(** X16.  From an empty store and a tip of at least 1, against a node that
    answers with a float for every height up to the tip and without an
    interrupt, the run completes and leaves the heights from 0 to the
    tip. *)
Lemma bootstrap_from_empty_store (law : float_repr_roundtrip F)
    (E : environment) (w : world) (tip : Z) :
  float_valued E ->
  initial_series w [] [] ->
  tip_outcome E = Ok (Some tip) ->
  1 <= tip ->
  (forall h, 0 <= h <= tip -> exists v, block_outcome E h = Ok v) ->
  (forall h, sigint_after E h = false) ->
  exists w' xs,
    synchronize E w = (Ok tt, w')
    /\ series w' = Ok (range 0 (Z.to_nat (tip + 1)), xs).
Proof.
  intros HE Hinit Htip Hpos Hhealthy Hquiet.
  destruct (healthy_run_completes E w [] [] tip Hinit Htip) as [w' Hrun];
    [lia | intros h Hh; apply Hhealthy; unfold cursor in Hh; simpl in Hh; lia
     | exact Hquiet |].
  destruct (completed_series law E w w' _ _ HE Hinit Hrun) as (tip' & xs & Htip' & Hser).
  rewrite Htip in Htip'. injection Htip' as <-.
  exists w', xs. split; [exact Hrun |].
  exact Hser.
Qed.

(** C4 at the tip 0.  From a store without data, against a chain that has
    its first block only, the run fetches height 0 and then divides by the
    tip in its progress line: it ends with ZeroDivisionError, and the
    store has no entry where one is due. *)
Theorem bootstrap_at_tip_zero_divides_by_zero (pool : Z -> pyfloat) :
  synchronize (node 0 pool) nowhere
  = (Raise ZeroDivisionError,
     {| disk := Some [header_row];
        stdout := ["Last CSV block: -1"; "Last Zend block: 0"];
        wire := [getblockcount; getblock "0"] |})
  /\ block_outcome (node 0 pool) 0 = Ok (JFloat (pool 0))
  /\ series {| disk := Some [header_row];
               stdout := ["Last CSV block: -1"; "Last Zend block: 0"];
               wire := [getblockcount; getblock "0"] |} = Ok ([], []).
Proof. repeat split. Qed.

(** ** What the remote functions do on a failure *)

Lemma tip_non_success (E : environment) (w : world) (r : response) :
  zend E getblockcount = Returns r ->
  status_code r <> 200 ->
  get_last_block_from_zend E w = (Ok None, sent w [getblockcount]).
Proof.
  intros Hr Hstatus. unfold get_last_block_from_zend, bind, requests_post, sent.
  rewrite Hr. destruct (Z.eqb_spec (status_code r) 200); [contradiction | reflexivity].
Qed.

Lemma value_non_success (E : environment) (h : Z) (r : response) :
  zend E (getblock (str h)) = Returns r ->
  status_code r <> 200 ->
  block_outcome E h = Raise (SystemExit None).
Proof.
  intros Hr Hstatus.
  unfold block_outcome, get_block_sprout_chain_value, bind, requests_post.
  rewrite Hr. destruct (Z.eqb_spec (status_code r) 200); [contradiction | reflexivity].
Qed.

(** C7 on the status 500.  [get_block_sprout_chain_value] prints the
    failure and exits; [get_last_block_from_zend] signals nothing and
    returns [None], and the run only fails later, in [main], when it
    compares the cursor with [None]. *)
Theorem tip_failure_is_not_signalled (w : world) :
  get_last_block_from_zend failing_node w = (Ok None, sent w [getblockcount])
  /\ block_outcome failing_node 0 = Raise (SystemExit None)
  /\ fst (synchronize failing_node nowhere) = Raise TypeError.
Proof. repeat split. Qed.

(** ** A store that does not load *)

Lemma get_csv_data_world (w : world) : snd (get_csv_data w) = w.
Proof. unfold get_csv_data. destruct (disk w) as [[| ? ?] |]; reflexivity. Qed.

(** A load that fails otherwise than on a missing file or on an index ends
    the run at once, with the file as it was. *)
Lemma load_error_is_fatal (E : environment) (w : world) (e : exn) :
  series w = Raise e ->
  e <> FileNotFoundError ->
  e <> IndexError ->
  synchronize E w = (Raise e, w).
Proof.
  intros Hser Hnf Hni.
  unfold synchronize, bind, last_checked_block_of_csv, get_last_block_from_csv, bind.
  pose proof (get_csv_data_world w) as Hw. unfold series in Hser.
  destruct (get_csv_data w) as [res w1]. simpl in *. subst.
  destruct e; try contradiction; reflexivity.
Qed.

End Properties.

(** * Further properties of the script *)

Section Coverage.
Context {F : PyFloat}.

(** ** Loading and appending *)

Lemma read_rows_iff (rows : list row) :
  forall hs vs,
    read_rows rows [] [] = Ok (hs, vs) <->
    Forall2 (fun r hv => parses r (fst hv) (snd hv)) rows (combine hs vs)
    /\ List.length hs = List.length vs.
Proof.
  induction rows as [| r rows IH]; intros hs vs.
  - simpl. split.
    + intros [= <- <-]. split; [constructor | reflexivity].
    + intros [Hall Hlen]. inversion Hall as [Hc |].
      destruct hs, vs; try discriminate. reflexivity.
  - cbn [read_rows]. split.
    + destruct r as [| c0 [| c1 rest]]; cbn [subscript nth_error]; try discriminate.
      * destruct (int c0); discriminate.
      * destruct (int c0) as [h |] eqn:Hh; [| discriminate].
        destruct (float c1) as [x |] eqn:Hx; [| discriminate].
        rewrite read_rows_acc.
        destruct (read_rows rows [] []) as [[hs' vs'] |] eqn:Hrest; [| discriminate].
        intros [= <- <-]. destruct (proj1 (IH hs' vs') eq_refl) as [Hall Hlen].
        split; [| simpl; now rewrite Hlen].
        constructor; [| exact Hall]. now exists c0, c1, rest.
    + intros [Hall Hlen].
      destruct hs as [| h hs'], vs as [| x vs']; try discriminate;
        [inversion Hall |].
      inversion Hall as [| ? ? ? ? (c0 & c1 & rest & -> & Hh & Hx) Hrest]; subst.
      cbn [subscript nth_error fst snd] in *. rewrite Hh, Hx, read_rows_acc.
      injection Hlen as Hlen.
      now rewrite (proj2 (IH hs' vs') (conj Hrest Hlen)).
Qed.

Lemma read_rows_shape (rows : list row) :
  forall hs vs,
    read_rows rows [] [] = Ok (hs, vs) ->
    List.length hs = List.length rows
    /\ Forall2 (fun r v => exists c0 c1 rest, r = c0 :: c1 :: rest /\ float c1 = Some v)
               rows vs.
Proof.
  induction rows as [| r rows IH]; intros hs vs; cbn [read_rows].
  - intros [= <- <-]. split; [reflexivity | constructor].
  - destruct r as [| c0 [| c1 rest]]; cbn [subscript nth_error]; try discriminate.
    + destruct (int c0); discriminate.
    + destruct (int c0) as [h |]; [| discriminate].
      destruct (float c1) as [x |] eqn:Hx; [| discriminate].
      rewrite read_rows_acc.
      destruct (read_rows rows [] []) as [[hs' vs'] |]; [| discriminate].
      intros [= <- <-]. destruct (IH hs' vs' eq_refl) as [Hlen Hall].
      split; [simpl; now rewrite Hlen |].
      constructor; [now exists c0, c1, rest | exact Hall].
Qed.

(** X1.  [get_csv_data] returns the heights [hs] and the values [vs]
    whenever the file exists, has a first row (which is skipped without
    being read), and every further row begins with a cell that reads as
    the height and a cell that reads as the value, row by row in order.
    Whenever it returns, the file exists and has a first row, there is
    one height and one value for each further row, and each such row has
    at least two cells, of which the second reads as its value. *)
Theorem load_returns_one_entry_per_row (w : world) (hs : list Z) (vs : list pyfloat) :
  (forall head rows,
      disk w = Some (head :: rows) ->
      Forall2 (fun r hv => parses r (fst hv) (snd hv)) rows (combine hs vs) ->
      List.length hs = List.length vs ->
      get_csv_data w = (Ok (hs, vs), w))
  /\ (get_csv_data w = (Ok (hs, vs), w) ->
      exists head rows,
        disk w = Some (head :: rows)
        /\ List.length hs = List.length rows
        /\ List.length vs = List.length rows
        /\ Forall2 (fun r v => exists c0 c1 rest,
                        r = c0 :: c1 :: rest /\ float c1 = Some v) rows vs).
Proof.
  unfold get_csv_data. split.
  - intros head rows -> Hall Hlen.
    now rewrite (proj2 (read_rows_iff rows hs vs) (conj Hall Hlen)).
  - destruct (disk w) as [[| head rows] |]; try discriminate.
    intros [= Hread]. exists head, rows. split; [reflexivity |].
    destruct (read_rows_shape _ _ _ Hread) as [Hlen Hall].
    split; [exact Hlen |]. split; [| exact Hall].
    apply read_rows_iff in Hread. destruct Hread as [_ Heq]. congruence.
Qed.

Section AppendRoundTrip.
Hypothesis law : float_repr_roundtrip F.

(** X2.  Entries appended to a store that loads are found after the ones
    it held, in the order given, by the next load. *)
Theorem append_extends_series (w : world) (hs : list Z) (vs : list pyfloat)
    (entries : list (Z * pyfloat)) :
  series w = Ok (hs, vs) ->
  series (append entries w) = Ok (hs ++ map fst entries, vs ++ map snd entries).
Proof.
  intros Hser.
  apply (series_after_append w (append entries w) (as_data entries));
    [exact Hser | now apply read_rows_written | reflexivity].
Qed.

(** X3.  Appending to a file that does not exist creates it without a
    header row, so the next load takes the first entry for the header and
    returns the others only; after appending no entry the file has no row
    at all and the load stops on its missing header. *)
Theorem append_without_header_hides_first_entry (w : world)
    (entries : list (Z * pyfloat)) :
  disk w = None ->
  series (append entries w)
  = match entries with
    | [] => Raise StopIteration
    | _ :: others => Ok (map fst others, map snd others)
    end.
Proof.
  intros Hnone. unfold series, append, writerows, get_csv_data. simpl.
  rewrite Hnone. destruct entries as [| e others]; [reflexivity |].
  simpl. fold (as_data others). fold (csv_rows (as_data others)).
  now apply read_rows_written.
Qed.

End AppendRoundTrip.

(** ** The remote calls *)

Lemma get_block_run_full (E : environment) (h : Z) (w : world) :
  exists w',
    get_block_sprout_chain_value E h w = (block_outcome E h, w')
    /\ wire w' = wire w ++ [getblock (str h)]
    /\ disk w' = disk w
    /\ (block_outcome E h <> Raise (SystemExit None) -> stdout w' = stdout w).
Proof.
  unfold block_outcome, get_block_sprout_chain_value, bind, requests_post.
  destruct (zend E (getblock (str h))) as [| | | r]; simpl; try here.
  destruct (Z.eqb (status_code r) 200); simpl.
  - unfold response_json. destruct (body r) as [j |]; simpl; [| here].
    unfold lift.
    destruct (item "result" j) as [j1 |]; simpl; [| here].
    destruct (item "valuePools" j1) as [j2 |]; simpl; [| here].
    destruct (first j2) as [j3 |]; simpl; [| here].
    destruct (item "chainValue" j3); here.
  - eexists. repeat split. intros H. now contradiction H.
Qed.

(** X4.  Each of the two remote functions puts exactly one request on the
    wire, whatever the answer: there is no retry.  Neither touches the
    file, the tip request prints nothing, and the value request prints
    only on its way to [exit()]. *)
Theorem remote_calls_send_one_request (E : environment) (h : Z) (w : world) :
  (exists w',
      get_block_sprout_chain_value E h w = (block_outcome E h, w')
      /\ wire w' = wire w ++ [getblock (str h)]
      /\ disk w' = disk w
      /\ (block_outcome E h <> Raise (SystemExit None) -> stdout w' = stdout w))
  /\ (exists w',
         get_last_block_from_zend E w = (tip_outcome E, w')
         /\ wire w' = wire w ++ [getblockcount]
         /\ disk w' = disk w
         /\ stdout w' = stdout w).
Proof.
  split; [apply get_block_run_full |].
  rewrite get_tip_run. eexists. repeat split.
Qed.

(** X20.  A value request succeeds with [v] exactly when the node
    answers with the status 200 and a JSON object whose [result] is an
    object, whose [valuePools] is a list that begins with an object, and
    whose [chainValue] in that object is [v]; [v] itself can be any JSON
    value. *)
Theorem value_request_succeeds_iff_payload_shape (E : environment) (h : Z) (v : json) :
  block_outcome E h = Ok v <->
  exists r top res pool pools,
    zend E (getblock (str h)) = Returns r
    /\ status_code r = 200
    /\ body r = Some (JObj top)
    /\ dict_get "result" top = Some (JObj res)
    /\ dict_get "valuePools" res = Some (JArr (JObj pool :: pools))
    /\ dict_get "chainValue" pool = Some v.
Proof.
  unfold block_outcome, get_block_sprout_chain_value, bind, requests_post.
  split.
  - destruct (zend E (getblock (str h))) as [| | | r]; simpl; try discriminate.
    destruct (Z.eqb_spec (status_code r) 200) as [Hs |]; simpl; [| discriminate].
    unfold response_json. destruct (body r) as [j |] eqn:Hbody; simpl; [| discriminate].
    unfold lift, item, first.
    destruct j as [| | | | | | top]; simpl; try discriminate.
    destruct (dict_get "result" top) as [j1 |] eqn:H1; simpl; [| discriminate].
    destruct j1 as [| | | | | | res]; simpl; try discriminate.
    destruct (dict_get "valuePools" res) as [j2 |] eqn:H2; simpl; [| discriminate].
    destruct j2 as [| | | | s | items |]; simpl; try discriminate.
    + destruct s; discriminate.
    + destruct items as [| j3 pools]; simpl; [discriminate |].
      destruct j3 as [| | | | | | pool]; simpl; try discriminate.
      destruct (dict_get "chainValue" pool) as [v' |] eqn:H3; simpl; [| discriminate].
      intros [= <-]. now exists r, top, res, pool, pools.
  - intros (r & top & res & pool & pools & -> & Hs & Hbody & H1 & H2 & H3).
    simpl. rewrite Hs. simpl. unfold response_json. rewrite Hbody. simpl.
    unfold lift, item. rewrite H1. simpl. rewrite H2. simpl. now rewrite H3.
Qed.

(** X21.  The tip request gives the height [tip] whenever the node
    answers with the status 200 and a JSON object whose [result] converts
    to the integer [tip]; whenever it gives a height, the status was 200
    and the body a JSON object with a [result].  It gives [None], without
    an error, exactly when the node answers with another status, whatever
    the body. *)
Theorem tip_request_outcomes (E : environment) :
  (forall r top j tip,
      zend E getblockcount = Returns r ->
      status_code r = 200 ->
      body r = Some (JObj top) ->
      dict_get "result" top = Some j ->
      int_of_json j = Ok tip ->
      tip_outcome E = Ok (Some tip))
  /\ (forall tip,
         tip_outcome E = Ok (Some tip) ->
         exists r top j,
           zend E getblockcount = Returns r
           /\ status_code r = 200
           /\ body r = Some (JObj top)
           /\ dict_get "result" top = Some j)
  /\ (tip_outcome E = Ok None <->
      exists r, zend E getblockcount = Returns r /\ status_code r <> 200).
Proof.
  unfold tip_outcome, get_last_block_from_zend, bind, requests_post.
  split; [| split; [| split]].
  - intros r top j tip -> Hs Hbody H1 H2.
    simpl. rewrite Hs. simpl. unfold response_json. rewrite Hbody. simpl.
    unfold lift, item. rewrite H1. simpl. now rewrite H2.
  - intros tip.
    destruct (zend E getblockcount) as [| | | r]; simpl; try discriminate.
    destruct (Z.eqb_spec (status_code r) 200) as [Hs |]; simpl; [| discriminate].
    unfold response_json. destruct (body r) as [j |] eqn:Hbody; simpl; [| discriminate].
    unfold lift, item.
    destruct j as [| | | | | | top]; simpl; try discriminate.
    destruct (dict_get "result" top) as [j1 |] eqn:H1; simpl; [| discriminate].
    intros _. now exists r, top, j1.
  - destruct (zend E getblockcount) as [| | | r]; simpl; try discriminate.
    destruct (Z.eqb_spec (status_code r) 200) as [Hs | Hs]; simpl;
      [| intros _; now exists r].
    unfold response_json. destruct (body r) as [j |]; simpl; [| discriminate].
    unfold lift. destruct (item "result" j) as [j1 |]; simpl; [| discriminate].
    destruct (int_of_json j1); discriminate.
  - intros (r & -> & Hs). simpl.
    destruct (Z.eqb_spec (status_code r) 200); [contradiction | reflexivity].
Qed.

(** ** What a run sends and what it writes *)

Lemma in_range (m : nat) : forall i h, In h (range i m) <-> i <= h < i + Z.of_nat m.
Proof.
  induction m as [| m IH]; intros i h; simpl range.
  - simpl. lia.
  - simpl In. rewrite IH. lia.
Qed.

Lemma str_inj (a b : Z) : str a = str b -> a = b.
Proof.
  intros H. pose proof (int_str a) as Ha. rewrite H, int_str in Ha. congruence.
Qed.

Lemma requests_above (i : Z) (m : nat) (h : Z) :
  In (getblock (str h)) (requests i m) -> i <= h < i + Z.of_nat m.
Proof.
  unfold requests. rewrite in_map_iff. intros (h' & [= H] & Hin).
  apply str_inj in H. subst. now apply in_range.
Qed.

Lemma requests_NoDup (m : nat) : forall i, NoDup (requests i m).
Proof.
  induction m as [| m IH]; intros i; [constructor |].
  change (requests i (S m)) with (getblock (str i) :: requests (i + 1) m).
  constructor; [| apply IH].
  intros Hin. apply requests_above in Hin. lia.
Qed.

(** X6.  On a store that loads, a run first asks for the tip and then for
    the values of consecutive heights, beginning with the one after the
    cursor, which is the height in the last row, and never going beyond
    the tip.  No height is asked for twice, and no height at or below the
    cursor is asked for: no stored height is asked for again when the
    last row holds the highest of them.  Without a tip there is no value
    request. *)
Theorem sync_requests_only_missing_heights (E : environment) (w w' : world)
    (hs : list Z) (vs : list pyfloat) r :
  initial_series w hs vs ->
  synchronize E w = (r, w') ->
  exists m : nat,
    wire w' = wire w ++ getblockcount :: requests (cursor hs + 1) m
    /\ match tip_outcome E with
       | Ok (Some tip) => (m <= Z.to_nat (tip - cursor hs))%nat
       | _ => m = 0%nat
       end
    /\ NoDup (requests (cursor hs + 1) m)
    /\ (forall h, h <= cursor hs ->
                  ~ In (getblock (str h)) (requests (cursor hs + 1) m))
    /\ (forall h, In h hs -> Forall (fun stored => stored <= cursor hs) hs ->
                  ~ In (getblock (str h)) (requests (cursor hs + 1) m)).
Proof.
  intros Hinit Hrun.
  assert (Hshape : exists m : nat,
             wire w' = wire w ++ getblockcount :: requests (cursor hs + 1) m
             /\ match tip_outcome E with
                | Ok (Some tip) => (m <= Z.to_nat (tip - cursor hs))%nat
                | _ => m = 0%nat
                end).
  { pose proof (synchronize_spec _ _ _ _ _ _ Hinit Hrun) as Hspec.
    destruct (tip_outcome E) as [[tip |] | e];
      [| exists 0%nat; now destruct Hspec as (_ & _ & ->)
       | exists 0%nat; now destruct Hspec as (_ & _ & ->)].
    destruct (Z.ltb_spec (cursor hs) tip) as [Hlt | Hge];
      [| exists 0%nat; destruct Hspec as (_ & _ & ->); split; [reflexivity | lia]].
    destruct Hspec as (w0 & Hupd & _ & Hwire0).
    apply update_csv_file_spec in Hupd.
    destruct Hupd as (data & outcome & w1 & Hloop & Hout).
    apply fetch_loop_spec in Hloop.
    destruct Hloop as (m & Hm & _ & _ & _ & Hr).
    replace (tip + 1 - (cursor hs + 1)) with (tip - cursor hs) in * by lia.
    assert (Hwire : wire w' = wire w1).
    { destruct outcome as [u | e]; [now destruct Hout as (_ & _ & ?) |].
      destruct e; try (now destruct Hout as [_ ->]).
      now destruct Hout as (_ & _ & ?). }
    rewrite Hwire.
    destruct outcome as [u | e].
    - destruct Hr as [-> ->]. exists (Z.to_nat (tip - cursor hs)).
      split; [| lia]. now rewrite Hwire0, <- app_assoc.
    - destruct Hr as [(Hlt' & _ & ->) | (m' & -> & -> & _)].
      + exists (S m). split; [| lia]. now rewrite Hwire0, <- app_assoc.
      + exists (S m'). split; [| lia]. now rewrite Hwire0, <- app_assoc. }
  destruct Hshape as (m & Hwire & Hm). exists m.
  split; [exact Hwire |]. split; [exact Hm |]. split; [apply requests_NoDup |].
  assert (Hbelow : forall h, h <= cursor hs ->
                     ~ In (getblock (str h)) (requests (cursor hs + 1) m)).
  { intros h Hle Hin. apply requests_above in Hin. lia. }
  split; [exact Hbelow |].
  intros h Hin Hall. apply Hbelow.
  rewrite Forall_forall in Hall. now apply Hall.
Qed.

Lemma read_rows_raise (rows : list row) :
  forall hs vs e, read_rows rows hs vs = Raise e -> e = IndexError \/ e = ValueError.
Proof.
  induction rows as [| r rows IH]; intros hs vs e; simpl; [discriminate |].
  unfold subscript, int.
  destruct (nth_error r 0) as [c0 |]; [| intros [= <-]; auto].
  destruct (NilZero.int_of_string c0); [| intros [= <-]; auto].
  destruct (nth_error r 1) as [c1 |]; [| intros [= <-]; auto].
  destruct (float c1); [apply IH | intros [= <-]; auto].
Qed.

(** The cursor of any file at all: the file is created when it is missing
    and is otherwise left alone, and nothing is sent or printed. *)
Lemma resolve_any (w : world) :
  exists res w0,
    last_checked_block_of_csv w = (res, w0)
    /\ disk w0 = disk (created w)
    /\ wire w0 = wire w
    /\ stdout w0 = stdout w
    /\ (disk w <> None -> w0 = w).
Proof.
  unfold last_checked_block_of_csv, get_last_block_from_csv, bind, get_csv_data,
    created, lift.
  destruct (disk w) as [[| head rows] |] eqn:Hdisk.
  - exists (Raise StopIteration), w. repeat split; simpl; try congruence; auto.
  - destruct (read_rows rows [] []) as [[hs vs] | e] eqn:Hread.
    + cbn [fst]. pose proof (last_item_cursor hs) as Hlast.
      destruct (last_item hs) as [h | e].
      * exists (Ok h), w. repeat split; simpl; try congruence; auto.
      * destruct Hlast as [-> _]. exists (Ok (-1)), w. repeat split; simpl; try congruence; auto.
    + destruct (read_rows_raise _ _ _ _ Hread) as [-> | ->].
      * exists (Ok (-1)), w. repeat split; simpl; try congruence; auto.
      * exists (Raise ValueError), w. repeat split; simpl; try congruence; auto.
  - eexists (Ok (-1)), _. split; [reflexivity |].
    repeat split; simpl; try congruence; auto.
Qed.

(** One run from a known cursor, taken apart, with what it prints. *)
Lemma synchronize_from (E : environment) (w w0 w' : world) (L : Z) r :
  last_checked_block_of_csv w = (Ok L, w0) ->
  synchronize E w = (r, w') ->
  match tip_outcome E with
  | Ok (Some tip) =>
      if L <? tip
      then exists w1,
          update_csv_file E (L + 1) tip w1 = (r, w')
          /\ disk w1 = disk w0
          /\ wire w1 = wire w0 ++ [getblockcount]
          /\ stdout w1 = stdout w0 ++ ["Last CSV block: " +++ str L;
                                       "Last Zend block: " +++ str tip]
      else r = Ok tt /\ disk w' = disk w0
           /\ wire w' = wire w0 ++ [getblockcount]
           /\ stdout w' = stdout w0 ++ ["Last CSV block: " +++ str L;
                                        "Last Zend block: " +++ str tip]
  | Ok None =>
      r = Raise TypeError /\ disk w' = disk w0
      /\ wire w' = wire w0 ++ [getblockcount]
      /\ stdout w' = stdout w0 ++ ["Last CSV block: " +++ str L;
                                   "Last Zend block: None"]
  | Raise e =>
      r = Raise e /\ disk w' = disk w0
      /\ wire w' = wire w0 ++ [getblockcount]
      /\ stdout w' = stdout w0
  end.
Proof.
  intros Hres. unfold synchronize, bind. rewrite Hres, get_tip_run.
  destruct (tip_outcome E) as [[tip |] | e]; simpl.
  - destruct (L <? tip).
    + intros Hrun. eexists. split; [exact Hrun |]. simpl.
      repeat split. now rewrite <- app_assoc.
    + intros [= <- <-]. simpl. repeat split. now rewrite <- app_assoc.
  - intros [= <- <-]. simpl. repeat split. now rewrite <- app_assoc.
  - intros [= <- <-]. repeat split.
Qed.


(** ** A value that does not read back *)

Lemma read_rows_unreadable (data : list (Z * json)) :
  forall hs vs,
    Exists (fun entry => float (csv_cell (snd entry)) = None) data ->
    read_rows (csv_rows data) hs vs = Raise ValueError.
Proof.
  induction data as [| [h v] data IH]; intros hs vs Hbad; [inversion Hbad |].
  simpl. rewrite int_str.
  destruct (float (csv_cell v)) as [x |] eqn:Hx; [| reflexivity].
  fold (csv_rows data). apply IH.
  inversion Hbad as [? ? Hhere | ? ? Hlater]; subst; [| exact Hlater].
  simpl in Hhere. congruence.
Qed.

(** X5.  The value that the node gives is written without being looked
    at.  When a run that completes has fetched a value whose cell does not
    read as a float (a [null] is written as an empty cell), the file no
    longer loads: every later run ends at once with ValueError, sends
    nothing and leaves the file as it is. *)
Theorem unreadable_value_poisons_store (E : environment) (w w' : world)
    (hs : list Z) (vs : list pyfloat) (tip h : Z) (v : json) :
  initial_series w hs vs ->
  tip_outcome E = Ok (Some tip) ->
  synchronize E w = (Ok tt, w') ->
  cursor hs < h <= tip ->
  block_outcome E h = Ok v ->
  float (csv_cell v) = None ->
  series w' = Raise ValueError
  /\ forall E', synchronize E' w' = (Raise ValueError, w').
Proof.
  intros Hinit Htip Hrun Hh Hv Hbad.
  assert (Hser : series w' = Raise ValueError).
  { destruct (completed_run _ _ _ _ _ Hinit Hrun) as (tip' & Htip' & _ & Hdisk & _).
    rewrite Htip in Htip'. injection Htip' as <-.
    destruct (resolve_spec _ _ _ Hinit) as [_ Hser0].
    destruct (series_disk _ _ _ Hser0) as (head & rows & Hd & Hread).
    unfold rows_of in Hdisk. rewrite Hd in Hdisk.
    unfold series, get_csv_data. rewrite Hdisk. simpl.
    rewrite read_rows_app, Hread.
    apply read_rows_unreadable. apply Exists_exists.
    exists (h, value_at E h). split.
    - unfold fetched. apply in_map_iff. exists h. split; [reflexivity |].
      apply in_range. lia.
    - unfold value_at. rewrite Hv. exact Hbad. }
  split; [exact Hser |].
  intros E'. apply load_error_is_fatal; [exact Hser | discriminate | discriminate].
Qed.

(** ** The verifier *)

Lemma anomalies_nil_iff (blocks : list Z) :
  anomalies blocks = [] <-> blocks = range (hd 0 blocks) (List.length blocks).
Proof.
  induction blocks as [| previous rest IH]; [simpl; tauto |].
  destruct rest as [| entry rest].
  - simpl. tauto.
  - rewrite anomalies_cons. cbn [hd List.length] in *.
    change (range previous (S (S (List.length rest))))
      with (previous :: range (previous + 1) (S (List.length rest))).
    destruct (Z.eqb_spec entry (previous + 1)) as [-> | Hne].
    + cbn [app]. rewrite IH.
      split; [intros H; f_equal; exact H | intros [= H]; cbn [range]; now f_equal].
    + split; [discriminate |]. intros [= H _]. contradiction.
Qed.

(** X8.  On a store that loads, the verifier prints nothing exactly when
    the stored heights go up by one from row to row, starting from
    whatever the first height is; it never fails and never changes the
    file. *)
Theorem verify_silent_iff_consecutive (w : world) (hs : list Z) (vs : list pyfloat) :
  series w = Ok (hs, vs) ->
  (exists lines, verify_csv_file w = (Ok tt, printed w lines)
                 /\ (lines = [] <-> hs = range (hd 0 hs) (List.length hs))).
Proof.
  intros Hser. exists (map anomaly_line (anomalies hs)).
  split; [exact (verify_csv_file_spec w hs vs Hser) |].
  rewrite <- anomalies_nil_iff.
  destruct (anomalies hs); simpl; split; auto; discriminate.
Qed.

(** ** The entry point *)

Lemma verify_csv_file_keeps (w w' : world) r :
  verify_csv_file w = (r, w') -> disk w' = disk w /\ wire w' = wire w.
Proof.
  unfold verify_csv_file, bind.
  pose proof (get_csv_data_world w) as Hw.
  destruct (get_csv_data w) as [[[hs vs] | e] w1] eqn:Hload; simpl in Hw; subst w1.
  - assert (Hser : series w = Ok (hs, vs)) by (unfold series; now rewrite Hload).
    pose proof (verify_csv_file_spec _ _ _ Hser) as Hspec.
    unfold verify_csv_file, bind in Hspec. rewrite Hload in Hspec.
    cbn [fst] in *. rewrite Hspec. intros [= _ <-]. split; reflexivity.
  - intros [= _ <-]. split; reflexivity.
Qed.

(** X9.  With [--verify_data] or with [--no_update] the script sends no
    request and leaves the file as it is; it does not create the file
    either.  With [--verify_data] the other options are not looked at. *)
Theorem offline_modes_change_nothing (E : environment) (args : arguments)
    (w w' : world) r :
  verify_data args = true \/ no_update args = true ->
  main E args w = (r, w') ->
  disk w' = disk w /\ wire w' = wire w.
Proof.
  intros Hmode. unfold main.
  destruct (verify_data args) eqn:Hv; [apply verify_csv_file_keeps |].
  destruct Hmode as [[=] | Hu]. rewrite Hu. unfold bind, ret, lift.
  assert (Hchart : forall s w0 r0 w1,
             (if experimental args then show_chart_experimental s else show_chart s) w0
             = (r0, w1) -> w1 = w0).
  { intros s w0 r0 w1. pose proof (get_csv_data_world w0) as Hw.
    destruct (experimental args); unfold show_chart, show_chart_experimental, bind, ret;
      destruct (get_csv_data w0) as [[d | e] w2]; simpl in Hw; subst w2;
      now intros [= _ <-]. }
  destruct (plot_from_height args) as [s |].
  - destruct (int s) as [start |]; [| now intros [= _ <-]].
    intros Hrun. apply Hchart in Hrun. now subst.
  - intros Hrun. apply Hchart in Hrun. now subst.
Qed.

Section ChartAfterSync.
Hypothesis law : float_repr_roundtrip F.

(** X10.  On a store that loaded or did not exist, after a
    synchronisation that completes against a node whose values are floats,
    the load made for the chart succeeds: the script as a whole ends
    without an error, in the world that the synchronisation left,
    whichever chart is asked for and from whichever height that reads as
    an integer. *)
Theorem main_succeeds_when_sync_succeeds (E : environment) (args : arguments)
    (w w' : world) (hs : list Z) (vs : list pyfloat) :
  float_valued E ->
  initial_series w hs vs ->
  verify_data args = false ->
  no_update args = false ->
  (forall s, plot_from_height args = Some s -> exists start, int s = Ok start) ->
  synchronize E w = (Ok tt, w') ->
  main E args w = (Ok tt, w').
Proof.
  intros HE Hinit Hv Hu Hp Hrun.
  destruct (completed_series law E w w' _ _ HE Hinit Hrun) as (tip & xs & _ & Hser).
  assert (Hchart : forall s,
             (if experimental args then show_chart_experimental s else show_chart s) w'
             = (Ok tt, w')).
  { intros s. pose proof (get_csv_data_world w') as Hw. unfold series in Hser.
    destruct (experimental args); unfold show_chart, show_chart_experimental, bind, ret;
      destruct (get_csv_data w') as [res w1]; simpl in *; subst; reflexivity. }
  unfold main, bind. rewrite Hv, Hu.
  destruct (plot_from_height args) as [s |].
  - destruct (Hp s eq_refl) as [start Hs]. unfold lift. rewrite Hs, Hrun. apply Hchart.
  - unfold ret. rewrite Hrun. apply Hchart.
Qed.

End ChartAfterSync.

(** ** The chart *)

Lemma series_lengths (w : world) (hs : list Z) (vs : list pyfloat) :
  series w = Ok (hs, vs) -> List.length hs = List.length vs.
Proof.
  intros Hser. destruct (series_disk _ _ _ Hser) as (head & rows & _ & Hread).
  now apply read_rows_iff in Hread.
Qed.

Lemma skipn_range (k : nat) :
  forall i n, skipn k (range i n) = range (i + Z.of_nat k) (n - k).
Proof.
  induction k as [| k IH]; intros i n.
  - simpl. now rewrite Z.add_0_r, Nat.sub_0_r.
  - destruct n as [| n]; [reflexivity |].
    cbn [range skipn]. rewrite IH. cbn [Nat.sub]. f_equal. lia.
Qed.

(** X11.  On a store that holds the heights from 0 up without a gap, the
    chart asked for from height [s] gets, for both axes, lists of one
    length whose heights are those from [s] on: none, and no error, when
    [s] is beyond the last height.  A negative [s] selects the last [-s]
    entries. *)
Theorem chart_from_height_on_contiguous_store (w : world) (n : nat)
    (vs : list pyfloat) (s : Z) :
  series w = Ok (range 0 n, vs) ->
  exists xs ys,
    chart_input s w = (Ok (xs, ys), w)
    /\ List.length xs = List.length ys
    /\ (0 <= s -> xs = range s (n - Z.to_nat s))
    /\ (s < 0 -> xs = range (Z.max (Z.of_nat n + s) 0)
                           (Z.to_nat (Z.min (- s) (Z.of_nat n)))).
Proof.
  intros Hser.
  pose proof (get_csv_data_world w) as Hw.
  unfold chart_input, bind, ret. unfold series in Hser.
  destruct (get_csv_data w) as [res w1] eqn:Hload. simpl in *. subst.
  assert (Hlen : List.length vs = n).
  { rewrite <- (series_lengths w (range 0 n) vs), range_length; [reflexivity |].
    unfold series. now rewrite Hload. }
  eexists _, _. split; [reflexivity |]. cbn [fst snd]. unfold slice_from.
  rewrite range_length, Hlen, skipn_range. split; [| split].
  - now rewrite range_length, length_skipn, Hlen.
  - intros Hs. destruct (Z.ltb_spec s 0) as [| _]; [lia |].
    f_equal. lia.
  - intros Hs. destruct (Z.ltb_spec s 0) as [_ |]; [| lia].
    f_equal; lia.
Qed.

(** ** Files that do not load *)

Lemma read_rows_good (good : list row) :
  Forall (fun r => exists h v, parses r h v) good ->
  exists hs vs, read_rows good [] [] = Ok (hs, vs).
Proof.
  induction 1 as [| r good (h & v & c0 & c1 & cells & -> & Hh & Hv) _ (hs & vs & IH)].
  - now exists [], [].
  - exists (h :: hs), (v :: vs). simpl. now rewrite Hh, Hv, read_rows_acc, IH.
Qed.

(** X12.  A row whose first cell reads as an integer and whose second
    cell does not read as a float ends the run at once with ValueError
    when the rows before it are well formed: nothing is sent, nothing is
    printed and the file is left as it is. *)
Theorem bad_value_cell_stops_the_run (E : environment) (w : world)
    (head : row) (good : list row) (rest : list row)
    (c0 c1 : string) (cells : list string) (h : Z) :
  disk w = Some (head :: good ++ (c0 :: c1 :: cells) :: rest) ->
  Forall (fun r => exists h v, parses r h v) good ->
  int c0 = Ok h ->
  float c1 = None ->
  synchronize E w = (Raise ValueError, w).
Proof.
  intros Hdisk Hgood Hc0 Hc1.
  destruct (read_rows_good _ Hgood) as (hs & vs & Hread).
  apply load_error_is_fatal; [| discriminate | discriminate].
  unfold series, get_csv_data. rewrite Hdisk. simpl.
  rewrite read_rows_app, Hread. simpl. now rewrite Hc0, Hc1.
Qed.

(** One run from a known cursor: what it sends, and what it has written
    when it completes. *)
Lemma run_from (E : environment) (w w0 w' : world) (L : Z) r :
  last_checked_block_of_csv w = (Ok L, w0) ->
  synchronize E w = (r, w') ->
  exists m : nat,
    wire w' = wire w0 ++ getblockcount :: requests (L + 1) m
    /\ (r = Ok tt ->
        exists tip,
          tip_outcome E = Ok (Some tip)
          /\ m = Z.to_nat (tip - L)
          /\ disk w' = Some (rows_of w0 ++ csv_rows (fetched E (L + 1) m))).
Proof.
  intros Hres Hrun.
  pose proof (synchronize_from _ _ _ _ _ _ Hres Hrun) as Hspec.
  assert (Hsome : exists rows, disk w0 = Some rows).
  { destruct (resolve_any w) as (res & w0' & Hres' & Hdisk & _).
    rewrite Hres in Hres'. injection Hres' as <- <-. rewrite Hdisk. now eexists. }
  destruct Hsome as [rows Hrows].
  destruct (tip_outcome E) as [[tip |] | e];
    [| exists 0%nat; destruct Hspec as (-> & _ & -> & _); split; [reflexivity | discriminate]
     | exists 0%nat; destruct Hspec as (-> & _ & -> & _); split; [reflexivity | discriminate]].
  destruct (Z.ltb_spec L tip) as [Hlt | Hge].
  - destruct Hspec as (w1 & Hupd & Hdisk1 & Hwire1 & _).
    apply update_csv_file_spec in Hupd.
    destruct Hupd as (data & outcome & w2 & Hloop & Hout).
    apply fetch_loop_spec in Hloop.
    destruct Hloop as (m & Hm & Hdata & _ & Hdisk2 & Hr).
    replace (tip + 1 - (L + 1)) with (tip - L) in * by lia.
    assert (Hwire : wire w' = wire w2).
    { destruct outcome as [u | e]; [now destruct Hout as (_ & _ & ?) |].
      destruct e; try (now destruct Hout as [_ ->]).
      now destruct Hout as (_ & _ & ?). }
    rewrite Hwire.
    destruct outcome as [u | e].
    + destruct Hr as [-> ->]. exists (Z.to_nat (tip - L)).
      split; [now rewrite Hwire1, <- app_assoc |].
      intros _. exists tip. split; [reflexivity |]. split; [reflexivity |].
      destruct Hout as (_ & -> & _). rewrite Hdata. simpl.
      f_equal. f_equal. apply rows_of_disk. congruence.
    + assert (Hne : r <> Ok tt) by (destruct e; destruct Hout as [-> _]; discriminate).
      destruct Hr as [(_ & _ & ->) | (m' & -> & -> & _)].
      * exists (S m). split; [now rewrite Hwire1, <- app_assoc | contradiction].
      * exists (S m'). split; [now rewrite Hwire1, <- app_assoc | contradiction].
  - destruct Hspec as (-> & Hdisk & -> & _). exists 0%nat. split; [reflexivity |].
    intros _. exists tip. split; [reflexivity |]. split; [lia |].
    simpl. rewrite app_nil_r, Hdisk, Hrows. unfold rows_of. now rewrite Hrows.
Qed.

(** X13.  A row with fewer than two cells, after rows that are well
    formed, makes the load fail with IndexError, which [main] takes for an
    empty store: the run asks for the heights from 0 again and, when it
    completes, writes them all after the rows that the file held. *)
Theorem short_row_restarts_fetch_at_zero (E : environment) (w w' : world)
    (head : row) (good : list row) (bad : row) (rest : list row) r :
  disk w = Some (head :: good ++ bad :: rest) ->
  Forall (fun r => exists h v, parses r h v) good ->
  bad = [] \/ (exists c0 h, bad = [c0] /\ int c0 = Ok h) ->
  synchronize E w = (r, w') ->
  exists m : nat,
    wire w' = wire w ++ getblockcount :: requests 0 m
    /\ (r = Ok tt ->
        exists tip,
          tip_outcome E = Ok (Some tip)
          /\ disk w' = Some ((head :: good ++ bad :: rest)
                             ++ csv_rows (fetched E 0 (Z.to_nat (tip + 1))))).
Proof.
  intros Hdisk Hgood Hbad Hrun.
  destruct (read_rows_good _ Hgood) as (hs & vs & Hread).
  assert (Hres : last_checked_block_of_csv w = (Ok (-1), w)).
  { unfold last_checked_block_of_csv, get_last_block_from_csv, bind, get_csv_data.
    rewrite Hdisk. rewrite read_rows_app, Hread.
    destruct Hbad as [-> | (c0 & h & -> & Hc0)]; simpl; [| rewrite Hc0]; reflexivity. }
  destruct (run_from _ _ _ _ _ _ Hres Hrun) as (m & Hwire & Hdone).
  exists m. split; [exact Hwire |].
  intros Hr. destruct (Hdone Hr) as (tip & Htip & -> & Hd).
  exists tip. split; [exact Htip |].
  unfold rows_of in Hd. rewrite Hdisk in Hd.
  replace (tip - -1) with (tip + 1) in Hd by lia. exact Hd.
Qed.

(** ** Runs to the end *)

Lemma node_answers (tip : Z) (pool : Z -> pyfloat) (sigint : Z -> bool) (h : Z) :
  block_outcome (node_with tip (healthy pool) sigint) h = Ok (JFloat (pool h)).
Proof.
  unfold block_outcome, get_block_sprout_chain_value, bind, requests_post.
  simpl. now rewrite int_str.
Qed.

(** X14.  From a store without an entry, against a tip of 0 and a node
    that answers for height 0, the run always ends with
    ZeroDivisionError: the progress line after height 0 divides by the
    tip.  The value fetched is not written. *)
Theorem empty_store_at_tip_zero_crashes (E : environment) (w : world) (v : json) :
  initial_series w [] [] ->
  tip_outcome E = Ok (Some 0) ->
  block_outcome E 0 = Ok v ->
  exists w',
    synchronize E w = (Raise ZeroDivisionError, w')
    /\ disk w' = disk (created w)
    /\ wire w' = wire w ++ [getblockcount; getblock (str 0)].
Proof.
  intros Hinit Htip Hv.
  destruct (synchronize E w) as [r w'] eqn:Hrun. exists w'.
  pose proof (synchronize_spec _ _ _ _ _ _ Hinit Hrun) as Hspec.
  rewrite Htip in Hspec. cbn in Hspec.
  destruct Hspec as (w0 & Hupd & Hdisk0 & Hwire0).
  unfold update_csv_file in Hupd.
  change (Z.to_nat (0 + 1 - 0)) with 1%nat in Hupd. cbn [fetch_loop] in Hupd.
  destruct (get_block_run E 0 w0) as (w1 & Hget & Hdisk1 & Hwire1).
  rewrite Hget, Hv in Hupd. cbn in Hupd.
  injection Hupd as <- <-.
  split; [reflexivity |]. split; [now rewrite Hdisk1, Hdisk0 |].
  rewrite Hwire1, Hwire0, <- app_assoc. reflexivity.
Qed.

(** X15.  Against a node that answers every height between the cursor and
    the tip, without an interrupt, the run completes, unless it has to
    fetch height 0 against a tip of 0: it sends the tip request and one
    request per missing height, and appends one row per missing height in
    ascending order. *)
Theorem sync_completes_against_answering_node (E : environment) (w : world)
    (hs : list Z) (vs : list pyfloat) (tip : Z) :
  initial_series w hs vs ->
  tip_outcome E = Ok (Some tip) ->
  tip <> 0 \/ 0 <= cursor hs ->
  (forall h, cursor hs < h <= tip -> exists v, block_outcome E h = Ok v) ->
  (forall h, sigint_after E h = false) ->
  exists w',
    synchronize E w = (Ok tt, w')
    /\ disk w' = Some (rows_of (created w)
                        ++ csv_rows (fetched E (cursor hs + 1)
                                             (Z.to_nat (tip - cursor hs))))
    /\ wire w' = wire w ++ getblockcount
                         :: requests (cursor hs + 1) (Z.to_nat (tip - cursor hs)).
Proof.
  intros Hinit Htip Hsafe Hnode Hquiet.
  assert (Hdone : exists w', synchronize E w = (Ok tt, w')).
  { destruct (Z.eq_dec tip 0) as [-> | Hnz].
    - destruct Hsafe as [Hnz | Hpos]; [contradiction |].
      destruct (synchronize E w) as [r w'] eqn:Hrun. exists w'.
      pose proof (synchronize_spec _ _ _ _ _ _ Hinit Hrun) as Hspec.
      rewrite Htip in Hspec.
      destruct (Z.ltb_spec (cursor hs) 0) as [| _]; [lia |].
      now destruct Hspec as (-> & _).
    - now apply (healthy_run_completes E w hs vs tip). }
  destruct Hdone as [w' Hrun]. exists w'. split; [exact Hrun |].
  destruct (completed_run _ _ _ _ _ Hinit Hrun) as (tip' & Htip' & _ & Hdisk & Hwire).
  rewrite Htip in Htip'. injection Htip' as <-. split; assumption.
Qed.

(** ** What a run prints *)

Lemma after_body_stdout (E : environment) (end_height i : Z) (w w' : world) u :
  (progress_update i end_height ;;; interrupt_point E i) w = (Ok u, w') ->
  stdout w' = stdout w
              ++ (if i mod 10000 =? 0 then [progress_line end_height i] else []).
Proof.
  unfold bind, progress_update, interrupt_point, print, ret, raise, progress_line.
  destruct (Z.eqb (i mod 10000) 0);
    [destruct (Z.eqb end_height 0) |];
    destruct (sigint_after E i); simpl; try discriminate;
    intros [= _ <-]; simpl; [reflexivity | now rewrite app_nil_r].
Qed.

Lemma fetch_loop_stdout (E : environment) (end_height : Z) (count : nat) :
  forall i data w data' u w',
    fetch_loop E end_height count i data w = (data', Ok u, w') ->
    stdout w' = stdout w
                ++ map (progress_line end_height)
                       (filter (fun h => h mod 10000 =? 0) (range i count)).
Proof.
  induction count as [| count IH]; intros i data w data' u w' Hrun.
  - simpl in Hrun. injection Hrun as _ _ <-. simpl. now rewrite app_nil_r.
  - cbn [fetch_loop] in Hrun.
    destruct (get_block_run_full E i w) as (w1 & Hget & _ & _ & Hout1).
    rewrite Hget in Hrun.
    destruct (block_outcome E i) as [v | e]; [| discriminate].
    destruct ((progress_update i end_height ;;; interrupt_point E i) w1)
      as [[u1 | e] w2] eqn:Hbody; [| discriminate].
    apply after_body_stdout in Hbody. apply IH in Hrun.
    rewrite Hrun, Hbody, Hout1 by discriminate.
    cbn [range filter]. rewrite <- app_assoc.
    destruct (i mod 10000 =? 0); reflexivity.
Qed.

(** X17.  A run that completes prints the cursor, then the tip, then one
    progress line for each fetched height that is a multiple of 10000, in
    ascending order, and nothing else. *)
Theorem completed_run_prints_progress (E : environment) (w w' : world)
    (hs : list Z) (vs : list pyfloat) (tip : Z) :
  initial_series w hs vs ->
  tip_outcome E = Ok (Some tip) ->
  synchronize E w = (Ok tt, w') ->
  stdout w' = stdout w
              ++ ["Last CSV block: " +++ str (cursor hs);
                  "Last Zend block: " +++ str tip]
              ++ map (progress_line tip)
                     (filter (fun h => h mod 10000 =? 0)
                             (range (cursor hs + 1) (Z.to_nat (tip - cursor hs)))).
Proof.
  intros Hinit Htip Hrun.
  destruct (resolve_spec _ _ _ Hinit) as [Hres _].
  pose proof (synchronize_from _ _ _ _ _ _ Hres Hrun) as Hspec.
  rewrite Htip in Hspec.
  destruct (Z.ltb_spec (cursor hs) tip) as [Hlt | Hge].
  - destruct Hspec as (w1 & Hupd & _ & _ & Hout1).
    unfold update_csv_file in Hupd.
    replace (tip + 1 - (cursor hs + 1)) with (tip - cursor hs) in Hupd by lia.
    destruct (fetch_loop E tip (Z.to_nat (tip - cursor hs)) (cursor hs + 1) [] w1)
      as [[data outcome] w2] eqn:Hloop.
    destruct outcome as [u | e].
    + apply fetch_loop_stdout in Hloop.
      unfold bind, ret, writerows in Hupd. simpl in Hupd.
      injection Hupd as <-. simpl. rewrite Hloop, Hout1.
      now rewrite <- app_assoc.
    + destruct e; unfold bind, ret, raise, print, writerows in Hupd; simpl in Hupd;
        discriminate.
  - destruct Hspec as (_ & _ & _ & ->).
    replace (Z.to_nat (tip - cursor hs)) with 0%nat by lia.
    simpl. reflexivity.
Qed.

(** ** The update on its own *)

(** X18.  Asked for a range that is empty, [update_csv_file] sends and
    prints nothing and writes no row, but it opens the file for appending:
    a file that did not exist then exists without a header, and no longer
    loads. *)
Theorem update_with_empty_range (E : environment) (start_height end_height : Z)
    (w : world) :
  end_height < start_height ->
  update_csv_file E start_height end_height w
  = (Ok tt, {| disk := Some (rows_of w); stdout := stdout w; wire := wire w |})
  /\ (disk w = None ->
      series {| disk := Some (rows_of w); stdout := stdout w; wire := wire w |}
      = Raise StopIteration).
Proof.
  intros Hlt. unfold update_csv_file.
  replace (Z.to_nat (end_height + 1 - start_height)) with 0%nat by lia.
  unfold bind, ret, writerows, rows_of. simpl. rewrite app_nil_r.
  split; [reflexivity |].
  intros Hnone. unfold series, get_csv_data. simpl. now rewrite Hnone.
Qed.

(** ** Resuming *)

Lemma csv_rows_app (a b : list (Z * json)) :
  csv_rows (a ++ b) = csv_rows a ++ csv_rows b.
Proof. unfold csv_rows. apply map_app. Qed.

Lemma fetched_app (E : environment) (i : Z) (m k : nat) :
  fetched E i (m + k) = fetched E i m ++ fetched E (i + Z.of_nat m) k.
Proof. unfold fetched. now rewrite range_app, map_app. Qed.

Section Resumption.
Hypothesis law : float_repr_roundtrip F.

(** X19.  An interrupt costs nothing and repeats nothing.  When a run on
    a store that loaded or did not exist, against a node whose values are
    floats, is cancelled and the next run completes, against a node that
    gives the same values where the first one answered and whose tip is
    not lower, the file is the one that a single run to that tip would
    have written: the rows held at the start, then one row for each height
    from the cursor to the tip. *)
Theorem resumed_run_equals_uninterrupted_run (E E' : environment)
    (w w1 w2 : world) (hs : list Z) (vs : list pyfloat) (tip tip' : Z) :
  float_valued E ->
  initial_series w hs vs ->
  tip_outcome E = Ok (Some tip) ->
  synchronize E w = (Raise (SystemExit (Some 0)), w1) ->
  tip_outcome E' = Ok (Some tip') ->
  tip <= tip' ->
  (forall h v, block_outcome E h = Ok v -> block_outcome E' h = Ok v) ->
  synchronize E' w1 = (Ok tt, w2) ->
  disk w2 = Some (rows_of (created w)
                  ++ csv_rows (fetched E' (cursor hs + 1) (Z.to_nat (tip' - cursor hs))))
  /\ forall w3, synchronize E' w = (Ok tt, w3) -> disk w3 = disk w2.
Proof.
  intros HE Hinit Htip Hrun Htip' Hle Hsame Hrun'.
  destruct (cancelled_run _ _ _ _ _ Hinit Hrun)
    as (tip0 & N & Htip0 & HN & Hall & Hdisk1 & _).
  rewrite Htip in Htip0. injection Htip0 as <-.
  destruct (read_rows_fetched law E HE _ _ Hall) as (xs & _ & Hread).
  destruct (resolve_spec _ _ _ Hinit) as [_ Hser0].
  pose proof (series_after_append _ _ _ _ _ _ _ Hser0 Hread Hdisk1) as Hser1.
  assert (Hinit1 : initial_series w1 (hs ++ range (cursor hs + 1) N) (vs ++ xs))
    by now right.
  assert (Hcur : cursor (hs ++ range (cursor hs + 1) N) = cursor hs + Z.of_nat N).
  { rewrite cursor_range. destruct N; lia. }
  destruct (completed_run _ _ _ _ _ Hinit1 Hrun') as (tip1 & Htip1 & _ & Hdisk2 & _).
  rewrite Htip' in Htip1. injection Htip1 as <-.
  rewrite Hcur, (created_id _ _ _ Hser1) in Hdisk2.
  assert (Hrows1 : rows_of w1
                   = rows_of (created w) ++ csv_rows (fetched E' (cursor hs + 1) N)).
  { unfold rows_of at 1. rewrite Hdisk1. do 2 f_equal.
    unfold fetched. apply map_ext_in. intros h Hin. f_equal.
    rewrite Forall_forall in Hall. specialize (Hall h Hin).
    unfold value_at at 2. now rewrite (Hsame _ _ Hall). }
  assert (Hgoal : disk w2
                  = Some (rows_of (created w)
                          ++ csv_rows (fetched E' (cursor hs + 1)
                                               (Z.to_nat (tip' - cursor hs))))).
  { rewrite Hdisk2, Hrows1, <- app_assoc, <- csv_rows_app.
    replace (cursor hs + Z.of_nat N + 1) with (cursor hs + 1 + Z.of_nat N) by lia.
    rewrite <- fetched_app. do 4 f_equal. lia. }
  split; [exact Hgoal |].
  intros w3 Hrun3.
  destruct (completed_run _ _ _ _ _ Hinit Hrun3) as (tip3 & Htip3 & _ & Hdisk3 & _).
  rewrite Htip' in Htip3. injection Htip3 as <-.
  now rewrite Hdisk3, Hgoal.
Qed.

(** X22.  However a run ends, the store afterwards loads and holds the
    series it held before followed by entries for consecutive heights from
    the cursor on: no entry is changed, none is skipped, and a store that
    held the heights from 0 up without a gap still does. *)
Theorem sync_extends_series_whatever_the_outcome (E : environment) (w w' : world)
    (hs : list Z) (vs : list pyfloat) r :
  float_valued E ->
  initial_series w hs vs ->
  synchronize E w = (r, w') ->
  exists (N : nat) (xs : list pyfloat),
    series w' = Ok (hs ++ range (cursor hs + 1) N, vs ++ xs)
    /\ map (value_at E) (range (cursor hs + 1) N) = map JFloat xs
    /\ (forall n, hs = range 0 n -> hs ++ range (cursor hs + 1) N = range 0 (n + N)).
Proof.
  intros HE Hinit Hrun.
  destruct (resolve_spec _ _ _ Hinit) as [_ Hser0].
  assert (Hgap : forall N n, hs = range 0 n ->
                   hs ++ range (cursor hs + 1) N = range 0 (n + N)).
  { intros N n ->. rewrite cursor_range0, range_app. do 2 f_equal. lia. }
  assert (Hfetched : forall N,
             Forall (fun h => block_outcome E h = Ok (value_at E h))
                    (range (cursor hs + 1) N) ->
             disk w' = Some (rows_of (created w)
                             ++ csv_rows (fetched E (cursor hs + 1) N)) ->
             exists (N : nat) (xs : list pyfloat),
               series w' = Ok (hs ++ range (cursor hs + 1) N, vs ++ xs)
               /\ map (value_at E) (range (cursor hs + 1) N) = map JFloat xs
               /\ (forall n, hs = range 0 n ->
                             hs ++ range (cursor hs + 1) N = range 0 (n + N))).
  { intros N Hall Hdisk.
    destruct (read_rows_fetched law E HE _ _ Hall) as (xs & Hvals & Hread).
    exists N, xs. split; [| split; [exact Hvals | apply Hgap]].
    exact (series_after_append _ _ _ _ _ _ _ Hser0 Hread Hdisk). }
  assert (Hkept : disk w' = disk (created w) ->
             exists (N : nat) (xs : list pyfloat),
               series w' = Ok (hs ++ range (cursor hs + 1) N, vs ++ xs)
               /\ map (value_at E) (range (cursor hs + 1) N) = map JFloat xs
               /\ (forall n, hs = range 0 n ->
                             hs ++ range (cursor hs + 1) N = range 0 (n + N))).
  { intros Hdisk. apply (Hfetched 0%nat); [constructor |].
    rewrite Hdisk. simpl. now rewrite app_nil_r. }
  destruct r as [[] | e].
  - destruct (completed_run _ _ _ _ _ Hinit Hrun) as (tip & _ & Hall & Hdisk & _).
    exact (Hfetched _ Hall Hdisk).
  - assert (Hquit : {e = SystemExit (Some 0)} + {e <> SystemExit (Some 0)}).
    { destruct e; try (right; discriminate).
      destruct code as [z |]; [| right; discriminate].
      destruct (Z.eq_dec z 0) as [-> | Hz]; [now left | right; congruence]. }
    destruct Hquit as [-> | Hother].
    + destruct (cancelled_run _ _ _ _ _ Hinit Hrun)
        as (tip & N & _ & _ & Hall & Hdisk & _).
      exact (Hfetched _ Hall Hdisk).
    + apply Hkept.
      pose proof (synchronize_spec _ _ _ _ _ _ Hinit Hrun) as Hspec.
      destruct (tip_outcome E) as [[tip |] | e0];
        [| now destruct Hspec as (_ & ? & _) | now destruct Hspec as (_ & ? & _)].
      destruct (cursor hs <? tip); [| now destruct Hspec as (_ & ? & _)].
      destruct Hspec as (w0 & Hupd & Hdisk0 & _).
      apply update_csv_file_spec in Hupd.
      destruct Hupd as (data & outcome & w1 & Hloop & Hout).
      apply fetch_loop_spec in Hloop.
      destruct Hloop as (_ & _ & _ & _ & Hdisk1 & _).
      destruct outcome as [u | e0]; [now destruct Hout as [[=] _] |].
      destruct e0; try (destruct Hout as [_ ->]; congruence).
      destruct Hout as [[= ->] _]. now contradiction Hother.
Qed.

End Resumption.

End Coverage.

(** * The properties on the example chain *)

#[local] Existing Instance whole_floats.

Lemma strip_point_zero_app (s : string) : strip_point_zero (s +++ ".0") = s.
Proof.
  induction s as [| c rest IH]; [reflexivity |].
  cbn [String.append strip_point_zero].
  replace (String.eqb (String c (rest +++ ".0")) ".0") with false.
  - now rewrite IH.
  - symmetry. cbn [String.eqb].
    destruct rest as [| d [| d' rest']]; cbn [String.append String.eqb];
      destruct (Ascii.eqb c "."); try reflexivity;
      destruct (Ascii.eqb d "0"); reflexivity.
Qed.

Lemma whole_floats_law : float_repr_roundtrip whole_floats.
Proof.
  intros x. simpl. unfold whole_float, whole_repr.
  now rewrite strip_point_zero_app, int_str.
Qed.

(** ** The store *)

Lemma append_then_load_on_chain :
  series (stored []) = Ok ([], [])
  /\ series (append [(0, 0); (1, 10); (2, 20)] (stored []))
     = Ok ([0; 1; 2], [0; 10; 20]).
Proof.
  split; [reflexivity |].
  apply (@append_then_load whole_floats whole_floats_law (stored [])
                           [(0, 0); (1, 10); (2, 20)]).
  reflexivity.
Defined.

Lemma verify_on_store_with_gaps :
  let w := stored [["0"; "0.0"]; ["1"; "10.0"]; ["2"; "20.0"]; ["4"; "40.0"];
                   ["5"; "50.0"]; ["7"; "70.0"]] in
  series w = Ok ([0; 1; 2; 4; 5; 7], [0; 10; 20; 40; 50; 70])
  /\ verify_csv_file w
     = (Ok tt, printed w ["Unexpected entry 4, previous value 2";
                          "Unexpected entry 7, previous value 5"]).
Proof.
  split; [reflexivity |].
  apply (proj1 (@verify_reports_every_anomaly whole_floats)
               (stored [["0"; "0.0"]; ["1"; "10.0"]; ["2"; "20.0"]; ["4"; "40.0"];
                        ["5"; "50.0"]; ["7"; "70.0"]])
               [0; 1; 2; 4; 5; 7] [0; 10; 20; 40; 50; 70]).
  reflexivity.
Defined.

(** ** Runs that succeed *)

Lemma successful_sync_on_chain :
  float_valued (chain 3)
  /\ initial_series nowhere (range 0 0) []
  /\ synchronize (chain 3) nowhere = (Ok tt, first_run (chain 3))
  /\ exists n' vs',
       (0 <= n')%nat
       /\ series (first_run (chain 3)) = Ok (range 0 n', vs')
       /\ verify_csv_file (first_run (chain 3)) = (Ok tt, first_run (chain 3)).
Proof.
  assert (H1 : float_valued (chain 3)) by apply node_float_valued.
  assert (H2 : initial_series nowhere (range 0 0) []) by (left; repeat split).
  assert (H3 : synchronize (chain 3) nowhere = (Ok tt, first_run (chain 3)))
    by reflexivity.
  refine (conj H1 (conj H2 (conj H3 _))).
  exact (@successful_sync_keeps_contiguity whole_floats whole_floats_law
           (chain 3) nowhere (first_run (chain 3)) 0 [] H1 H2 H3).
Defined.

Lemma second_sync_on_chain :
  float_valued (chain 1)
  /\ initial_series nowhere [] []
  /\ tip_outcome (chain 1) = Ok (Some 1)
  /\ synchronize (chain 1) nowhere = (Ok tt, first_run (chain 1))
  /\ tip_outcome (chain 3) = Ok (Some 3)
  /\ synchronize (chain 3) (first_run (chain 1))
     = (Ok tt, snd (synchronize (chain 3) (first_run (chain 1))))
  /\ wire (snd (synchronize (chain 3) (first_run (chain 1))))
     = wire (first_run (chain 1)) ++ getblockcount :: requests (1 + 1) 2.
Proof.
  assert (H1 : float_valued (chain 1)) by apply node_float_valued.
  assert (H2 : initial_series nowhere [] []) by (left; repeat split).
  assert (H3 : tip_outcome (chain 1) = Ok (Some 1)) by reflexivity.
  assert (H4 : synchronize (chain 1) nowhere = (Ok tt, first_run (chain 1)))
    by reflexivity.
  assert (H5 : tip_outcome (chain 3) = Ok (Some 3)) by reflexivity.
  assert (H6 : synchronize (chain 3) (first_run (chain 1))
               = (Ok tt, snd (synchronize (chain 3) (first_run (chain 1)))))
    by reflexivity.
  refine (conj H1 (conj H2 (conj H3 (conj H4 (conj H5 (conj H6 _)))))).
  exact (proj2 (proj2 (proj2
           (@second_sync_fetches_from_cursor whole_floats whole_floats_law
              (chain 1) (chain 3) nowhere (first_run (chain 1)) [] [] 1
              H1 H2 H3 H4 3 (Ok tt) _ H5 H6))
           ltac:(lia) ltac:(unfold cursor; simpl; lia) eq_refl)).
Defined.

(** C5 as stated fails when the store is ahead of the first tip: with the
    heights 0, 1, 2 stored and a first run against the tip 1, a second run
    against the tip 3 fetches height 3 alone, not the heights 2 and 3. *)
Lemma second_sync_when_store_is_ahead :
  let w := stored [["0"; "0.0"]; ["1"; "10.0"]; ["2"; "20.0"]] in
  let w1 := snd (synchronize (chain 1) w) in
  let w2 := snd (synchronize (chain 3) w1) in
  synchronize (chain 1) w = (Ok tt, w1)
  /\ synchronize (chain 3) w1 = (Ok tt, w2)
  /\ wire w2 = wire w1 ++ [getblockcount; getblock "3"]
  /\ wire w2 <> wire w1 ++ getblockcount :: requests (1 + 1) 2
  /\ series w2 = Ok ([0; 1; 2; 3], [0; 10; 20; 30]).
Proof.
  repeat split. discriminate.
Qed.

(** ** Runs that are cancelled *)

Lemma cancelled_sync_on_chain :
  float_valued (node_interrupted_after 3 1)
  /\ initial_series nowhere [] []
  /\ synchronize (node_interrupted_after 3 1) nowhere
     = (Raise (SystemExit (Some 0)), first_run (node_interrupted_after 3 1))
  /\ exists (tip : Z) (N : nat) (xs : list Z),
       tip_outcome (node_interrupted_after 3 1) = Ok (Some tip)
       /\ (N <= Z.to_nat (tip - cursor []))%nat
       /\ series (first_run (node_interrupted_after 3 1))
          = Ok ([] ++ range (cursor [] + 1) N, [] ++ xs).
Proof.
  assert (H1 : float_valued (node_interrupted_after 3 1)) by apply node_float_valued.
  assert (H2 : initial_series nowhere [] []) by (left; repeat split).
  assert (H3 : synchronize (node_interrupted_after 3 1) nowhere
               = (Raise (SystemExit (Some 0)), first_run (node_interrupted_after 3 1)))
    by reflexivity.
  refine (conj H1 (conj H2 (conj H3 _))).
  destruct (@cancelled_sync_keeps_fetched_prefix whole_floats whole_floats_law
              (node_interrupted_after 3 1) nowhere _ [] [] H1 H2 H3)
    as (tip & N & xs & Htip & HN & _ & _ & _ & _ & Hser & _).
  now exists tip, N, xs.
Defined.

Lemma cancellation_on_chain :
  initial_series nowhere [] []
  /\ synchronize (node_interrupted_at 3 1) nowhere
     = (Raise (SystemExit (Some 0)), first_run (node_interrupted_at 3 1))
  /\ exists N : nat,
       disk (first_run (node_interrupted_at 3 1))
       = Some (rows_of (created nowhere)
               ++ csv_rows (fetched (node_interrupted_at 3 1) (cursor [] + 1) N)).
Proof.
  assert (H2 : initial_series nowhere [] []) by (left; repeat split).
  assert (H3 : synchronize (node_interrupted_at 3 1) nowhere
               = (Raise (SystemExit (Some 0)), first_run (node_interrupted_at 3 1)))
    by reflexivity.
  refine (conj H2 (conj H3 _)).
  destruct (@cancellation_stops_the_loop whole_floats
              (node_interrupted_at 3 1) nowhere _ [] [] H2 H3) as (N & Hdisk & _).
  now exists N.
Defined.

(** C9 as stated fails: the interrupt can cut the request for height 1
    while it is in flight.  The run is cancelled with that request on the
    wire and without a value for it. *)
Lemma interrupt_cuts_request_in_flight :
  ~ interrupt_only_between_requests (node_interrupted_at 3 1) nowhere.
Proof.
  intros H.
  apply (H (first_run (node_interrupted_at 3 1)) (getblock "1")).
  - reflexivity.
  - simpl. auto.
  - reflexivity.
Qed.

(** ** Runs that fail *)

Lemma failed_fetch_on_chain :
  initial_series nowhere [] []
  /\ synchronize (node_refusing 3 1) nowhere
     = (Raise ConnectionError, first_run (node_refusing 3 1))
  /\ wire (first_run (node_refusing 3 1))
     = wire nowhere ++ getblockcount :: requests (cursor [] + 1) 2
  /\ block_outcome (node_refusing 3 1) (cursor [] + 1 + Z.of_nat 1) = Raise ConnectionError
  /\ ConnectionError <> KeyboardInterrupt
  /\ series (first_run (node_refusing 3 1)) = Ok ([], []).
Proof.
  assert (H1 : initial_series nowhere [] []) by (left; repeat split).
  assert (H2 : synchronize (node_refusing 3 1) nowhere
               = (Raise ConnectionError, first_run (node_refusing 3 1)))
    by reflexivity.
  assert (H3 : wire (first_run (node_refusing 3 1))
               = wire nowhere ++ getblockcount :: requests (cursor [] + 1) 2)
    by reflexivity.
  assert (H4 : block_outcome (node_refusing 3 1) (cursor [] + 1 + Z.of_nat 1)
               = Raise ConnectionError) by reflexivity.
  assert (H5 : ConnectionError <> KeyboardInterrupt) by discriminate.
  refine (conj H1 (conj H2 (conj H3 (conj H4 (conj H5 _))))).
  exact (proj2 (proj2 (proj2
           (@failed_fetch_surfaces_and_drops_buffer whole_floats
              (node_refusing 3 1) nowhere _ [] [] 1 ConnectionError _
              H1 H2 H3 H4 H5)))).
Defined.

(** C1 as stated fails: the node answers for height 0 and refuses the
    request for height 1, the second of the run.  The run ends with the
    connection error, and the store holds no entry: the one fetched for
    height 0 is lost. *)
Lemma failed_fetch_loses_fetched_entries :
  let E := node_refusing 3 1 in
  let w' := first_run E in
  synchronize E nowhere = (Raise ConnectionError, w')
  /\ wire w' = [getblockcount; getblock "0"; getblock "1"]
  /\ block_outcome E 0 = Ok (JFloat 0)
  /\ block_outcome E 1 = Raise ConnectionError
  /\ series w' = Ok ([], [])
  /\ series w' <> Ok ([0], [0]).
Proof.
  repeat split. discriminate.
Qed.

(** ** A store with a short row *)

(** C8 on a row of one cell.  The load fails with IndexError on the row
    ["1"]; [main] takes this for an empty store and starts again from
    height 0: the run succeeds and writes the heights 0 and 1 after the
    rows that were there. *)
Theorem short_row_restarts_from_zero :
  let w := stored [["0"; "0.0"]; ["1"]] in
  series w = Raise IndexError
  /\ synchronize (chain 1) w
     = (Ok tt,
        {| disk := Some [header_row; ["0"; "0.0"]; ["1"]; ["0"; "0.0"]; ["1"; "10.0"]];
           stdout := ["Last CSV block: -1"; "Last Zend block: 1";
                      "Processing block 0/1 [0%]"];
           wire := [getblockcount; getblock "0"; getblock "1"] |}).
Proof. split; reflexivity. Qed.

(** A row whose height is not a number is fatal, as C8 has it. *)
Lemma bad_height_is_fatal :
  let w := stored [["0"; "0.0"]; ["one"; "10.0"]] in
  series w = Raise ValueError
  /\ synchronize (chain 1) w = (Raise ValueError, w).
Proof.
  split; [reflexivity |].
  apply (@load_error_is_fatal whole_floats); [reflexivity | discriminate | discriminate].
Qed.

(** * The further properties on the example chain *)

(** ** Loading and appending *)

Lemma load_on_chain :
  disk four_blocks
  = Some (header_row :: [["0"; "0.0"]; ["1"; "10.0"]; ["2"; "20.0"]; ["3"; "30.0"]])
  /\ List.length [0; 1; 2; 3] = List.length [0; 10; 20; 30]
  /\ get_csv_data four_blocks = (Ok ([0; 1; 2; 3], [0; 10; 20; 30]), four_blocks).
Proof.
  assert (H1 : disk four_blocks
               = Some (header_row :: [["0"; "0.0"]; ["1"; "10.0"]; ["2"; "20.0"];
                                      ["3"; "30.0"]])) by reflexivity.
  assert (H2 : List.length [0; 1; 2; 3] = List.length [0; 10; 20; 30]) by reflexivity.
  refine (conj H1 (conj H2 _)).
  refine (proj1 (@load_returns_one_entry_per_row whole_floats four_blocks
                   [0; 1; 2; 3] [0; 10; 20; 30]) _ _ H1 _ H2).
  repeat constructor; cbn [fst snd].
  - exists "0", "0.0", []. repeat split.
  - exists "1", "10.0", []. repeat split.
  - exists "2", "20.0", []. repeat split.
  - exists "3", "30.0", []. repeat split.
Defined.

Lemma tip_request_on_chain :
  zend (chain 5) getblockcount = Returns (ok_response (count_payload 5))
  /\ status_code (ok_response (count_payload 5)) = 200
  /\ int_of_json (JInt 5) = Ok 5
  /\ tip_outcome (chain 5) = Ok (Some 5).
Proof.
  assert (H1 : zend (chain 5) getblockcount = Returns (ok_response (count_payload 5)))
    by reflexivity.
  assert (H2 : status_code (@ok_response whole_floats (count_payload 5)) = 200)
    by reflexivity.
  assert (H3 : @int_of_json whole_floats (JInt 5) = Ok 5) by reflexivity.
  refine (conj H1 (conj H2 (conj H3 _))).
  exact (proj1 (@tip_request_outcomes whole_floats (chain 5))
               (ok_response (count_payload 5)) [("result", JInt 5)] (JInt 5) 5
               H1 H2 eq_refl eq_refl H3).
Defined.

Lemma append_extends_series_on_chain :
  series four_blocks = Ok ([0; 1; 2; 3], [0; 10; 20; 30])
  /\ series (append [(4, 40); (5, 50)] four_blocks)
     = Ok ([0; 1; 2; 3; 4; 5], [0; 10; 20; 30; 40; 50]).
Proof.
  assert (H1 : series four_blocks = Ok ([0; 1; 2; 3], [0; 10; 20; 30])) by reflexivity.
  refine (conj H1 _).
  exact (@append_extends_series whole_floats whole_floats_law four_blocks
           [0; 1; 2; 3] [0; 10; 20; 30] [(4, 40); (5, 50)] H1).
Defined.

Lemma append_without_header_on_chain :
  disk nowhere = None
  /\ series (append [(0, 0); (1, 10); (2, 20)] nowhere) = Ok ([1; 2], [10; 20]).
Proof.
  refine (conj eq_refl _).
  exact (@append_without_header_hides_first_entry whole_floats whole_floats_law
           nowhere [(0, 0); (1, 10); (2, 20)] eq_refl).
Defined.

(** ** A value that does not read back *)

Lemma unreadable_value_on_chain :
  initial_series nowhere [] []
  /\ tip_outcome (node_without_value 2 1) = Ok (Some 2)
  /\ synchronize (node_without_value 2 1) nowhere
     = (Ok tt, first_run (node_without_value 2 1))
  /\ cursor [] < 1 <= 2
  /\ block_outcome (node_without_value 2 1) 1 = Ok JNull
  /\ float (csv_cell JNull) = None
  /\ series (first_run (node_without_value 2 1)) = Raise ValueError
  /\ synchronize (chain 5) (first_run (node_without_value 2 1))
     = (Raise ValueError, first_run (node_without_value 2 1)).
Proof.
  assert (H1 : initial_series nowhere [] []) by (left; repeat split).
  assert (H2 : tip_outcome (node_without_value 2 1) = Ok (Some 2)) by reflexivity.
  assert (H3 : synchronize (node_without_value 2 1) nowhere
               = (Ok tt, first_run (node_without_value 2 1))) by reflexivity.
  assert (H4 : cursor [] < 1 <= 2) by (unfold cursor; simpl; lia).
  assert (H5 : block_outcome (node_without_value 2 1) 1 = Ok JNull) by reflexivity.
  assert (H6 : float (csv_cell JNull) = None) by reflexivity.
  refine (conj H1 (conj H2 (conj H3 (conj H4 (conj H5 (conj H6 _)))))).
  destruct (@unreadable_value_poisons_store whole_floats
              (node_without_value 2 1) nowhere _ [] [] 2 1 JNull H1 H2 H3 H4 H5 H6)
    as [Hser Hnext].
  exact (conj Hser (Hnext (chain 5))).
Defined.

(** ** What a run sends and what it writes *)

Lemma sync_requests_on_chain :
  initial_series four_blocks [0; 1; 2; 3] [0; 10; 20; 30]
  /\ synchronize (chain 5) four_blocks = (Ok tt, snd (synchronize (chain 5) four_blocks))
  /\ exists m : nat,
       wire (snd (synchronize (chain 5) four_blocks))
       = wire four_blocks ++ getblockcount :: requests (cursor [0; 1; 2; 3] + 1) m
       /\ (m <= 2)%nat
       /\ ~ In (getblock (str 3)) (requests (cursor [0; 1; 2; 3] + 1) m).
Proof.
  assert (H1 : initial_series four_blocks [0; 1; 2; 3] [0; 10; 20; 30])
    by (right; reflexivity).
  assert (H2 : synchronize (chain 5) four_blocks
               = (Ok tt, snd (synchronize (chain 5) four_blocks))) by reflexivity.
  refine (conj H1 (conj H2 _)).
  destruct (@sync_requests_only_missing_heights whole_floats (chain 5) four_blocks _
              [0; 1; 2; 3] [0; 10; 20; 30] (Ok tt) H1 H2)
    as (m & Hwire & Hm & _ & Hbelow & _).
  exists m. split; [exact Hwire |]. split; [exact Hm |].
  apply Hbelow. unfold cursor. simpl. lia.
Defined.


(** ** The verifier and the entry point *)

Lemma verify_silent_on_chain :
  series four_blocks = Ok ([0; 1; 2; 3], [0; 10; 20; 30])
  /\ exists lines,
       verify_csv_file four_blocks = (Ok tt, printed four_blocks lines)
       /\ (lines = [] <-> [0; 1; 2; 3] = range (hd 0 [0; 1; 2; 3]) 4).
Proof.
  assert (H1 : series four_blocks = Ok ([0; 1; 2; 3], [0; 10; 20; 30])) by reflexivity.
  refine (conj H1 _).
  exact (@verify_silent_iff_consecutive whole_floats four_blocks
           [0; 1; 2; 3] [0; 10; 20; 30] H1).
Defined.

Lemma offline_modes_on_chain :
  (verify_data verify_only = true \/ no_update verify_only = true)
  /\ main (chain 5) verify_only four_blocks
     = (Ok tt, snd (main (chain 5) verify_only four_blocks))
  /\ disk (snd (main (chain 5) verify_only four_blocks)) = disk four_blocks
  /\ wire (snd (main (chain 5) verify_only four_blocks)) = wire four_blocks.
Proof.
  assert (H1 : verify_data verify_only = true \/ no_update verify_only = true)
    by (left; reflexivity).
  assert (H2 : main (chain 5) verify_only four_blocks
               = (Ok tt, snd (main (chain 5) verify_only four_blocks)))
    by reflexivity.
  refine (conj H1 (conj H2 _)).
  exact (@offline_modes_change_nothing whole_floats (chain 5) verify_only
           four_blocks _ _ H1 H2).
Defined.

Lemma main_succeeds_on_chain :
  float_valued (chain 5)
  /\ initial_series four_blocks [0; 1; 2; 3] [0; 10; 20; 30]
  /\ verify_data chart_from_two = false
  /\ no_update chart_from_two = false
  /\ (forall s, plot_from_height chart_from_two = Some s -> exists start, int s = Ok start)
  /\ synchronize (chain 5) four_blocks = (Ok tt, snd (synchronize (chain 5) four_blocks))
  /\ main (chain 5) chart_from_two four_blocks
     = (Ok tt, snd (synchronize (chain 5) four_blocks)).
Proof.
  assert (H1 : float_valued (chain 5)) by apply node_float_valued.
  assert (H2 : initial_series four_blocks [0; 1; 2; 3] [0; 10; 20; 30])
    by (right; reflexivity).
  assert (H3 : verify_data chart_from_two = false) by reflexivity.
  assert (H4 : no_update chart_from_two = false) by reflexivity.
  assert (H5 : forall s, plot_from_height chart_from_two = Some s ->
                         exists start, int s = Ok start)
    by (intros s [= <-]; now exists 2).
  assert (H6 : synchronize (chain 5) four_blocks
               = (Ok tt, snd (synchronize (chain 5) four_blocks))) by reflexivity.
  refine (conj H1 (conj H2 (conj H3 (conj H4 (conj H5 (conj H6 _)))))).
  exact (@main_succeeds_when_sync_succeeds whole_floats whole_floats_law
           (chain 5) chart_from_two four_blocks _ [0; 1; 2; 3] [0; 10; 20; 30]
           H1 H2 H3 H4 H5 H6).
Defined.

Lemma chart_from_height_on_chain :
  series four_blocks = Ok (range 0 4, [0; 10; 20; 30])
  /\ exists xs ys,
       chart_input 2 four_blocks = (Ok (xs, ys), four_blocks)
       /\ List.length xs = List.length ys
       /\ xs = [2; 3].
Proof.
  assert (H1 : series four_blocks = Ok (range 0 4, [0; 10; 20; 30])) by reflexivity.
  refine (conj H1 _).
  destruct (@chart_from_height_on_contiguous_store whole_floats four_blocks 4
              [0; 10; 20; 30] 2 H1) as (xs & ys & Hc & Hlen & Hpos & _).
  exists xs, ys. split; [exact Hc |]. split; [exact Hlen |].
  apply Hpos. lia.
Defined.

(** ** Files that do not load *)

Lemma bad_value_cell_on_chain :
  let w := stored [["0"; "0.0"]; ["1"; "ten"]; ["2"; "20.0"]] in
  disk w = Some (header_row :: [["0"; "0.0"]] ++ ("1" :: "ten" :: []) :: [["2"; "20.0"]])
  /\ Forall (fun r => exists h v, parses r h v) [["0"; "0.0"]]
  /\ int "1" = Ok 1
  /\ float "ten" = None
  /\ synchronize (chain 5) w = (Raise ValueError, w).
Proof.
  intros w.
  assert (H1 : disk w = Some (header_row :: [["0"; "0.0"]] ++ ("1" :: "ten" :: [])
                                         :: [["2"; "20.0"]])) by reflexivity.
  assert (H2 : Forall (fun r => exists h v, parses r h v) [["0"; "0.0"]]).
  { constructor; [| constructor]. exists 0, 0, "0", "0.0", []. repeat split. }
  assert (H3 : int "1" = Ok 1) by reflexivity.
  assert (H4 : float "ten" = None) by reflexivity.
  refine (conj H1 (conj H2 (conj H3 (conj H4 _)))).
  exact (@bad_value_cell_stops_the_run whole_floats (chain 5) w header_row
           [["0"; "0.0"]] [["2"; "20.0"]] "1" "ten" [] 1 H1 H2 H3 H4).
Defined.

Lemma short_row_on_chain :
  let w := stored [["0"; "0.0"]; ["1"]; ["2"; "20.0"]] in
  let w' := snd (synchronize (chain 1) w) in
  disk w = Some (header_row :: [["0"; "0.0"]] ++ ["1"] :: [["2"; "20.0"]])
  /\ Forall (fun r => exists h v, parses r h v) [["0"; "0.0"]]
  /\ (["1"] = [] \/ (exists c0 h, ["1"] = [c0] /\ int c0 = Ok h))
  /\ synchronize (chain 1) w = (Ok tt, w')
  /\ exists m : nat, wire w' = wire w ++ getblockcount :: requests 0 m.
Proof.
  intros w w'.
  assert (H1 : disk w = Some (header_row :: [["0"; "0.0"]] ++ ["1"]
                                         :: [["2"; "20.0"]])) by reflexivity.
  assert (H2 : Forall (fun r => exists h v, parses r h v) [["0"; "0.0"]]).
  { constructor; [| constructor]. exists 0, 0, "0", "0.0", []. repeat split. }
  assert (H3 : ["1"] = [] \/ (exists c0 h, ["1"] = [c0] /\ int c0 = Ok h)).
  { right. exists "1", 1. split; reflexivity. }
  assert (H4 : synchronize (chain 1) w = (Ok tt, w')) by reflexivity.
  refine (conj H1 (conj H2 (conj H3 (conj H4 _)))).
  destruct (@short_row_restarts_fetch_at_zero whole_floats (chain 1) w w' header_row
              [["0"; "0.0"]] ["1"] [["2"; "20.0"]] (Ok tt) H1 H2 H3 H4)
    as (m & Hwire & _).
  now exists m.
Defined.

(** ** Runs to the end *)

Lemma tip_zero_on_chain :
  initial_series (stored []) [] []
  /\ tip_outcome (chain 0) = Ok (Some 0)
  /\ block_outcome (chain 0) 0 = Ok (JFloat 0)
  /\ exists w',
       synchronize (chain 0) (stored []) = (Raise ZeroDivisionError, w')
       /\ disk w' = disk (created (stored []))
       /\ wire w' = wire (stored []) ++ [getblockcount; getblock (str 0)].
Proof.
  assert (H1 : initial_series (stored []) [] []) by (right; reflexivity).
  assert (H2 : tip_outcome (chain 0) = Ok (Some 0)) by reflexivity.
  assert (H3 : block_outcome (chain 0) 0 = Ok (JFloat 0)) by reflexivity.
  refine (conj H1 (conj H2 (conj H3 _))).
  exact (@empty_store_at_tip_zero_crashes whole_floats (chain 0) (stored [])
           (JFloat 0) H1 H2 H3).
Defined.

Lemma chain_answers (tip h : Z) : exists v, block_outcome (chain tip) h = Ok v.
Proof. eexists. apply (@node_answers whole_floats). Qed.

Lemma sync_completes_on_chain :
  initial_series four_blocks [0; 1; 2; 3] [0; 10; 20; 30]
  /\ tip_outcome (chain 5) = Ok (Some 5)
  /\ (5 <> 0 \/ 0 <= cursor [0; 1; 2; 3])
  /\ (forall h, cursor [0; 1; 2; 3] < h <= 5 -> exists v, block_outcome (chain 5) h = Ok v)
  /\ (forall h, sigint_after (chain 5) h = false)
  /\ exists w',
       synchronize (chain 5) four_blocks = (Ok tt, w')
       /\ wire w' = wire four_blocks ++ getblockcount
                         :: requests (cursor [0; 1; 2; 3] + 1)
                                     (Z.to_nat (5 - cursor [0; 1; 2; 3])).
Proof.
  assert (H1 : initial_series four_blocks [0; 1; 2; 3] [0; 10; 20; 30])
    by (right; reflexivity).
  assert (H2 : tip_outcome (chain 5) = Ok (Some 5)) by reflexivity.
  assert (H3 : 5 <> 0 \/ 0 <= cursor [0; 1; 2; 3]) by (left; lia).
  assert (H4 : forall h, cursor [0; 1; 2; 3] < h <= 5 ->
                         exists v, block_outcome (chain 5) h = Ok v)
    by (intros h _; apply chain_answers).
  assert (H5 : forall h, sigint_after (chain 5) h = false) by reflexivity.
  refine (conj H1 (conj H2 (conj H3 (conj H4 (conj H5 _))))).
  destruct (@sync_completes_against_answering_node whole_floats (chain 5) four_blocks
              [0; 1; 2; 3] [0; 10; 20; 30] 5 H1 H2 H3 H4 H5)
    as (w' & Hrun & _ & Hwire).
  now exists w'.
Defined.

Lemma bootstrap_on_chain :
  float_valued (chain 3)
  /\ initial_series nowhere [] []
  /\ tip_outcome (chain 3) = Ok (Some 3)
  /\ 1 <= 3
  /\ (forall h, 0 <= h <= 3 -> exists v, block_outcome (chain 3) h = Ok v)
  /\ (forall h, sigint_after (chain 3) h = false)
  /\ exists w' xs,
       synchronize (chain 3) nowhere = (Ok tt, w')
       /\ series w' = Ok (range 0 (Z.to_nat (3 + 1)), xs).
Proof.
  assert (H1 : float_valued (chain 3)) by apply node_float_valued.
  assert (H2 : initial_series nowhere [] []) by (left; repeat split).
  assert (H3 : tip_outcome (chain 3) = Ok (Some 3)) by reflexivity.
  assert (H4 : 1 <= 3) by lia.
  assert (H5 : forall h, 0 <= h <= 3 -> exists v, block_outcome (chain 3) h = Ok v)
    by (intros h _; apply chain_answers).
  assert (H6 : forall h, sigint_after (chain 3) h = false) by reflexivity.
  refine (conj H1 (conj H2 (conj H3 (conj H4 (conj H5 (conj H6 _)))))).
  exact (@bootstrap_from_empty_store whole_floats whole_floats_law (chain 3) nowhere 3
           H1 H2 H3 H4 H5 H6).
Defined.

(** ** What a run prints *)

Lemma progress_on_chain :
  initial_series nowhere [] []
  /\ tip_outcome (chain 3) = Ok (Some 3)
  /\ synchronize (chain 3) nowhere = (Ok tt, first_run (chain 3))
  /\ stdout (first_run (chain 3))
     = ["Last CSV block: -1"; "Last Zend block: 3"; "Processing block 0/3 [0%]"].
Proof.
  assert (H1 : initial_series nowhere [] []) by (left; repeat split).
  assert (H2 : tip_outcome (chain 3) = Ok (Some 3)) by reflexivity.
  assert (H3 : synchronize (chain 3) nowhere = (Ok tt, first_run (chain 3)))
    by reflexivity.
  refine (conj H1 (conj H2 (conj H3 _))).
  exact (@completed_run_prints_progress whole_floats (chain 3) nowhere _ [] [] 3
           H1 H2 H3).
Defined.

(** ** The update on its own *)

Lemma empty_range_on_chain :
  3 < 4
  /\ update_csv_file (chain 3) 4 3 nowhere
     = (Ok tt, {| disk := Some []; stdout := []; wire := [] |})
  /\ series {| disk := Some []; stdout := []; wire := [] |} = Raise StopIteration.
Proof.
  assert (H1 : 3 < 4) by lia.
  refine (conj H1 _).
  destruct (@update_with_empty_range whole_floats (chain 3) 4 3 nowhere H1)
    as [Hrun Hload].
  exact (conj Hrun (Hload eq_refl)).
Defined.

(** ** Resuming *)

Lemma resumed_run_on_chain :
  float_valued (node_interrupted_after 3 1)
  /\ initial_series nowhere [] []
  /\ tip_outcome (node_interrupted_after 3 1) = Ok (Some 3)
  /\ synchronize (node_interrupted_after 3 1) nowhere
     = (Raise (SystemExit (Some 0)), first_run (node_interrupted_after 3 1))
  /\ tip_outcome (chain 5) = Ok (Some 5)
  /\ 3 <= 5
  /\ (forall h v, block_outcome (node_interrupted_after 3 1) h = Ok v ->
                  block_outcome (chain 5) h = Ok v)
  /\ synchronize (chain 5) (first_run (node_interrupted_after 3 1))
     = (Ok tt, snd (synchronize (chain 5) (first_run (node_interrupted_after 3 1))))
  /\ disk (first_run (chain 5))
     = disk (snd (synchronize (chain 5) (first_run (node_interrupted_after 3 1)))).
Proof.
  assert (H1 : float_valued (node_interrupted_after 3 1)) by apply node_float_valued.
  assert (H2 : initial_series nowhere [] []) by (left; repeat split).
  assert (H3 : tip_outcome (node_interrupted_after 3 1) = Ok (Some 3)) by reflexivity.
  assert (H4 : synchronize (node_interrupted_after 3 1) nowhere
               = (Raise (SystemExit (Some 0)), first_run (node_interrupted_after 3 1)))
    by reflexivity.
  assert (H5 : tip_outcome (chain 5) = Ok (Some 5)) by reflexivity.
  assert (H6 : 3 <= 5) by lia.
  assert (H7 : forall h v, block_outcome (node_interrupted_after 3 1) h = Ok v ->
                           block_outcome (chain 5) h = Ok v).
  { intros h v. unfold node_interrupted_after, chain, node.
    now rewrite !(@node_answers whole_floats). }
  assert (H8 : synchronize (chain 5) (first_run (node_interrupted_after 3 1))
               = (Ok tt, snd (synchronize (chain 5)
                                          (first_run (node_interrupted_after 3 1)))))
    by reflexivity.
  refine (conj H1 (conj H2 (conj H3 (conj H4 (conj H5 (conj H6 (conj H7 (conj H8 _)))))))).
  exact (proj2 (@resumed_run_equals_uninterrupted_run whole_floats whole_floats_law
                  (node_interrupted_after 3 1) (chain 5) nowhere _ _ [] [] 3 5
                  H1 H2 H3 H4 H5 H6 H7 H8)
               (first_run (chain 5)) eq_refl).
Defined.

Lemma sync_extends_series_on_chain :
  float_valued (node_refusing 5 5)
  /\ initial_series four_blocks [0; 1; 2; 3] [0; 10; 20; 30]
  /\ synchronize (node_refusing 5 5) four_blocks
     = (Raise ConnectionError, snd (synchronize (node_refusing 5 5) four_blocks))
  /\ exists (N : nat) (xs : list Z),
       series (snd (synchronize (node_refusing 5 5) four_blocks))
       = Ok ([0; 1; 2; 3] ++ range (cursor [0; 1; 2; 3] + 1) N, [0; 10; 20; 30] ++ xs).
Proof.
  assert (H1 : float_valued (node_refusing 5 5)).
  { intros h v. unfold block_outcome, get_block_sprout_chain_value, bind, requests_post.
    simpl. rewrite int_str. destruct (h =? 5); simpl; [discriminate |].
    intros [= <-]. eauto. }
  assert (H2 : initial_series four_blocks [0; 1; 2; 3] [0; 10; 20; 30])
    by (right; reflexivity).
  assert (H3 : synchronize (node_refusing 5 5) four_blocks
               = (Raise ConnectionError, snd (synchronize (node_refusing 5 5) four_blocks)))
    by reflexivity.
  refine (conj H1 (conj H2 (conj H3 _))).
  destruct (@sync_extends_series_whatever_the_outcome whole_floats whole_floats_law
              (node_refusing 5 5) four_blocks _ [0; 1; 2; 3] [0; 10; 20; 30] _ H1 H2 H3)
    as (N & xs & Hser & _).
  now exists N, xs.
Defined.

(** * Values that are no floats *)

(** C2 as stated fails when the node gives a value that is no float.  The
    node answers [null] for height 0 and a float for height 1, and the
    interrupt arrives after height 1: the run is cancelled with two of
    its four heights fetched and writes both, the first with an empty
    value cell.  The store then does not load, and the next run ends with
    ValueError before it sends anything: it does not resume at height
    2. *)
Lemma cancelled_sync_after_null_value_does_not_resume :
  let E := node_without_value_interrupted_after 3 0 1 in
  let w1 := first_run E in
  synchronize E nowhere = (Raise (SystemExit (Some 0)), w1)
  /\ block_outcome E 0 = Ok JNull
  /\ block_outcome E 1 = Ok (JFloat 10)
  /\ wire w1 = [getblockcount; getblock "0"; getblock "1"]
  /\ disk w1 = Some [header_row; ["0"; ""]; ["1"; "10.0"]]
  /\ series w1 = Raise ValueError
  /\ synchronize (chain 3) w1 = (Raise ValueError, w1).
Proof. repeat split. Qed.

(** C3 as stated fails when the node gives a value that is no float.  The
    store holds the heights 0 to 3; the node answers [null] for height 4
    and a float for height 5.  The run succeeds, and the verifier then
    ends with ValueError instead of finding no anomaly. *)
Lemma successful_sync_after_null_value_fails_verify :
  let E := node_without_value 5 4 in
  let w1 := snd (synchronize E four_blocks) in
  series four_blocks = Ok (range 0 4, [0; 10; 20; 30])
  /\ synchronize E four_blocks = (Ok tt, w1)
  /\ disk w1 = Some [header_row; ["0"; "0.0"]; ["1"; "10.0"]; ["2"; "20.0"];
                     ["3"; "30.0"]; ["4"; ""]; ["5"; "50.0"]]
  /\ series w1 = Raise ValueError
  /\ verify_csv_file w1 = (Raise ValueError, w1).
Proof. repeat split. Qed.

(** C5 also fails when the first run wrote a value that is no float: the
    first run completes against the tip 2 with [null] for height 1, and a
    second run against the tip 4 ends with ValueError before it sends
    anything, instead of fetching the heights 3 and 4. *)
Lemma second_sync_after_null_value_fetches_nothing :
  let E := node_without_value 2 1 in
  let w1 := first_run E in
  synchronize E nowhere = (Ok tt, w1)
  /\ tip_outcome E = Ok (Some 2)
  /\ tip_outcome (chain 4) = Ok (Some 4)
  /\ synchronize (chain 4) w1 = (Raise ValueError, w1)
  /\ synchronize (chain 2) w1 = (Raise ValueError, w1).
Proof. repeat split. Qed.
